(** * app_espeak: the eSpeak dialplan application of Asterisk

    A shallow embedding of [app_exec] (src/app_espeak.c).  The function is
    one long sequence of calls into the host (Asterisk), the synthesiser
    (eSpeak), libsndfile and libsamplerate, with early [return]s.  It is
    modelled as a program in a small monad that

    - appends the calls that reach a collaborator to a trace,
    - threads the channel state and the allocation counter,
    - stops at a [return], and
    - stops at undefined behaviour (a null or uninitialised buffer that is
      accessed, a division by zero).

    What the collaborators answer is read from a [world]; the library
    routines that are pure functions of their arguments are the fields of
    the class [Host]. *)

From Stdlib Require Import ZArith List String Ascii Bool Lia DecimalString.
From Stdlib Require DecimalFacts DecimalPos Sorted.
Import ListNotations.

Open Scope string_scope.
Open Scope list_scope.
Open Scope Z_scope.

Set Implicit Arguments.

(** ** Constants of the source *)

Definition ESPEAK_CONFIG : string := "espeak.conf".
Definition MAXLEN : Z := 2048.
(* libsndfile formats *)
Definition RAW_PCM_S16LE : Z := 262146.
Definition WAV_PCM_S16LE : Z := 65538.
(* asterisk/file.h *)
Definition AST_DIGIT_ANY : string := "0123456789#*ABCD".

Definition SF_FORMAT_RAW : Z := 262144.

(** ** Machine integers *)

(** Two's complement reduction of an integer to [w] bits. *)
Definition wrap (w : Z) (z : Z) : Z :=
  (z + 2 ^ (w - 1)) mod 2 ^ w - 2 ^ (w - 1).

(** [int] and [sf_count_t] (a 64-bit signed integer). *)
Definition wrap32 : Z -> Z := wrap 32.
Definition wrap64 : Z -> Z := wrap 64.

(** ** Strings of libc *)

Definition strlen (s : string) : Z := Z.of_nat (String.length s).

(** [snprintf(buf, size, ...)]: the formatted text, cut to what fits in
    [size] bytes with the terminating zero. *)
Definition snprintf (size : nat) (formatted : string) : string :=
  String.substring 0 (size - 1) formatted.

(** The [%li] conversion. *)
Definition format_li (z : Z) : string := NilZero.string_of_int (Z.to_int z).

Definition isspace (c : ascii) : bool :=
  let n := nat_of_ascii c in
  ((9 <=? n) && (n <=? 13))%nat || (n =? 32)%nat.

Definition digit_of (c : ascii) : option Z :=
  let n := Z.of_nat (nat_of_ascii c) in
  if (48 <=? n) && (n <=? 57) then Some (n - 48) else None.

Fixpoint skip_space (s : string) : string :=
  match s with
  | String c r => if isspace c then skip_space r else s
  | EmptyString => s
  end.

Fixpoint atoi_digits (acc : Z) (s : string) : Z :=
  match s with
  | String c r =>
      match digit_of c with
      | Some d => atoi_digits (acc * 10 + d) r
      | None => acc
      end
  | EmptyString => acc
  end.

(** [atoi]: leading white space, an optional sign, then decimal digits up
    to the first other character; the value is reduced to an [int]. *)
Definition atoi (s : string) : Z :=
  match skip_space s with
  | String "-" r => wrap32 (- atoi_digits 0 r)
  | String "+" r => wrap32 (atoi_digits 0 r)
  | r => wrap32 (atoi_digits 0 r)
  end.

Definition tolower (c : ascii) : ascii :=
  let n := nat_of_ascii c in
  if ((65 <=? n) && (n <=? 90))%nat then ascii_of_nat (n + 32) else c.

Fixpoint lowercase (s : string) : string :=
  match s with
  | String c r => String (tolower c) (lowercase r)
  | EmptyString => EmptyString
  end.

(** [!strcasecmp(a, b)] *)
Definition strcasecmp_eq (a b : string) : bool :=
  String.eqb (lowercase a) (lowercase b).

(** [ast_strlen_zero]: a null pointer or an empty string. *)
Definition ast_strlen_zero (s : option string) : bool :=
  match s with
  | None => true
  | Some EmptyString => true
  | Some (String _ _) => false
  end.

(** ** Data of the collaborators *)

(** A cell of a buffer from [malloc]: indeterminate until it is written. *)
Inductive cell (float : Type) : Type :=
| Undef
| Val (f : float).
Arguments Undef {float}.
Arguments Val {float} f.

(** A pointer to a block of cells; [None] is the null pointer. *)
Definition buffer (float : Type) : Type := option (list (cell float)).

(** [SF_INFO] of sndfile.h *)
Record SF_INFO : Type := {
  frames : Z;
  samplerate : Z;
  channels : Z;
  format : Z;
  sections : Z;
  seekable : Z
}.

(** [memset(&info, 0, sizeof(info))] *)
Definition SF_INFO_zero : SF_INFO :=
  {| frames := 0; samplerate := 0; channels := 0; format := 0;
     sections := 0; seekable := 0 |}.

Inductive sf_mode : Type := SFM_READ | SFM_WRITE.

(** [SRC_DATA] of samplerate.h, the fields the caller sets.  [src_ratio] is
    the double quotient of two whole numbers, kept as the pair. *)
Record SRC_DATA (float : Type) : Type := {
  data_in : buffer float;
  data_out : buffer float;
  input_frames : Z;
  output_frames : Z;
  src_ratio : Z * Z
}.

Inductive espeak_PARAMETER : Type :=
| espeakRATE | espeakVOLUME | espeakWORDGAP | espeakPITCH | espeakCAPITALS.

(** The arguments of the application: [AST_DECLARE_APP_ARGS(args, ...)]. *)
Record app_args : Type := {
  text : string;
  interrupt : option string;
  language : option string
}.

(** A loaded configuration, as [ast_variable_retrieve] sees it:
    category, variable, value. *)
Definition ast_config : Type := string -> string -> option string.

Definition ast_variable_retrieve (cfg : ast_config) (category variable : string)
  : option string := cfg category variable.

(** The library routines that are functions of their arguments, over the
    type [float] of a C [float]. *)
Class Host (float : Type) : Type := {
  (** libsndfile's conversion of a 16-bit sample to a float, as
      [sf_readf_float] applies it to a PCM16 file *)
  short_to_float : Z -> float;
  (** the frames that [src_simple] with [SRC_SINC_FASTEST] on one channel
      generates from the input frames, the room in the output and the ratio *)
  sinc_fastest : list (cell float) -> Z -> Z * Z -> list (cell float);
  (** [ast_true]: non-zero for "yes", "true", "on", ... *)
  ast_true : string -> Z;
  ast_md5_hash : string -> string;
  (** [AST_STANDARD_APP_ARGS] on a non-empty argument string *)
  AST_STANDARD_APP_ARGS : string -> app_args
}.

(** The settings of the voice when [espeak_Synth] runs. *)
Record espeak_settings : Type := {
  s_voice : string;
  s_rate : Z;
  s_volume : Z;
  s_wordgap : Z;
  s_pitch : Z;
  s_capitals : Z
}.

(** What the collaborators answer during one call of [app_exec]. *)
Record world : Type := {
  (** [ast_config_load]: [None] when there is no configuration file *)
  w_config : option ast_config;
  (** [chan->_state == AST_STATE_UP] at entry *)
  w_chan_up : bool;
  w_chan_name : string;
  (** whether [ast_answer] brings the channel up *)
  w_answer : bool;
  w_fileexists : string -> Z;
  w_streamfile : string -> Z;
  w_waitstream : Z;
  w_random : Z;
  (** [espeak_Initialize]: the sample rate of the engine, or -1 *)
  w_espeak_Initialize : Z;
  (** the 16-bit samples that [espeak_Synth] hands to the callback *)
  w_wave : espeak_settings -> string -> list Z;
  w_fopen : string -> bool;
  w_sf_open : string -> sf_mode -> bool;
  (** whether the n-th [malloc] of the call returns a block *)
  w_malloc : nat -> bool;
  (** the number of frames [sf_readf_float] delivers of those asked for *)
  w_readf : Z -> Z
}.

(** ** Calls that reach a collaborator *)

Inductive log_level : Type := LOG_WARNING | LOG_ERROR.

(** An argument of a format string: [%s] or [%lf]. *)
Inductive log_arg : Type :=
| arg_s (s : option string)
| arg_lf (z : Z).

Section Model.

Context {float : Type} {host : Host float}.

Inductive event : Type :=
| ev_ast_log (level : log_level) (fmt : string) (args : list log_arg)
| ev_ast_debug (level : Z) (fmt : string) (args : list log_arg)
| ev_ast_config_load (file : string)
| ev_ast_config_destroy
| ev_ast_answer
| ev_ast_streamfile (file : string)
| ev_ast_waitstream (intkeys : option string)
| ev_ast_stopstream
| ev_ast_filecopy (from to : string)
| ev_ast_filedelete (file : string)
| ev_espeak_Initialize
| ev_espeak_SetSynthCallback
| ev_espeak_SetVoiceByName (name : string)
| ev_espeak_SetParameter (parameter : espeak_PARAMETER) (value : Z)
| ev_espeak_Synth (txt : string) (size : Z)
| ev_espeak_Terminate
| ev_fopen (name : string)
| ev_fclose (name : string)
| ev_remove (name : string)
| ev_sf_open (name : string) (mode : sf_mode) (info : SF_INFO)
(** [sf_readf_float(file, ptr, frames)], with the buffer as the call
    leaves it *)
| ev_sf_readf_float (name : string) (ptr : buffer float) (frames : Z)
| ev_src_simple (data : SRC_DATA float)
(** [sf_writef_float(file, ptr, frames)], with the frames taken from the
    buffer *)
| ev_sf_writef_float (name : string) (written : list (cell float)) (frames : Z)
| ev_sf_write_sync (name : string)
| ev_sf_close (name : string).

(** ** The monad of [app_exec] *)

Record state : Type := {
  (** the calls so far, the latest first *)
  trace : list event;
  chan_up : bool;
  (** the number of calls of [malloc] so far *)
  mallocs : nat
}.

(** How a statement ends: control goes on with a value, the function
    returns, or the behaviour is undefined. *)
Inductive step (A : Type) : Type :=
| Next (a : A)
| Return (rc : Z)
| Undefined.
Arguments Return {A} rc.
Arguments Undefined {A}.

Definition exec (A : Type) : Type := state -> step A * state.

Definition ret {A : Type} (a : A) : exec A := fun s => (Next a, s).

Definition bind {A B : Type} (m : exec A) (k : A -> exec B) : exec B :=
  fun s =>
    match m s with
    | (Next a, s') => k a s'
    | (Return rc, s') => (Return rc, s')
    | (Undefined, s') => (Undefined, s')
    end.

Definition return_ {A : Type} (rc : Z) : exec A := fun s => (Return rc, s).

Definition undefined {A : Type} : exec A := fun s => (Undefined, s).

Definition call (e : event) : exec unit :=
  fun s => (Next tt, {| trace := e :: trace s; chan_up := chan_up s;
                        mallocs := mallocs s |}).

Notation "x <- m ;; k" := (bind m (fun x => k))
  (at level 100, m at next level, right associativity).
Notation "m ;; k" := (bind m (fun _ => k))
  (at level 100, right associativity).

(** ** The host *)

Definition ast_log (level : log_level) (fmt : string) (args : list log_arg)
  : exec unit := call (ev_ast_log level fmt args).

Definition ast_debug (level : Z) (fmt : string) (args : list log_arg)
  : exec unit := call (ev_ast_debug level fmt args).

Definition ast_config_load (w : world) (file : string)
  : exec (option ast_config) :=
  call (ev_ast_config_load file) ;; ret (w_config w).

Definition ast_config_destroy : exec unit := call ev_ast_config_destroy.

(** [if (chan->_state != AST_STATE_UP) ast_answer(chan);] *)
Definition answer_unless_up (w : world) : exec unit :=
  fun s =>
    if chan_up s then (Next tt, s)
    else (Next tt, {| trace := ev_ast_answer :: trace s;
                      chan_up := w_answer w; mallocs := mallocs s |}).

Definition ast_streamfile (w : world) (file : string) : exec Z :=
  call (ev_ast_streamfile file) ;; ret (w_streamfile w file).

Definition ast_waitstream (w : world) (intkeys : option string) : exec Z :=
  call (ev_ast_waitstream intkeys) ;; ret (w_waitstream w).

(** ** libc, libsndfile and libsamplerate *)

Definition fopen (w : world) (name : string) : exec bool :=
  call (ev_fopen name) ;; ret (w_fopen w name).

(** [malloc(n * sizeof(float))]: a request of a negative [n], which the
    conversion to [size_t] makes huge, or of more bytes than a [size_t]
    counts, returns no block. *)
Definition malloc (w : world) (n : Z) : exec (buffer float) :=
  fun s =>
    (Next (if (0 <=? n) && (n <? 2 ^ 62) && w_malloc w (mallocs s)
           then Some (repeat Undef (Z.to_nat n)) else None),
     {| trace := trace s; chan_up := chan_up s; mallocs := S (mallocs s) |}).

(** [sf_open]: a null handle, or the handle with the [SF_INFO] as the
    library leaves it.  Of a raw file opened for reading the caller's sample
    rate, channels and format stand and the frames are those stored.  What
    the library fills in on opening for writing is not read afterwards. *)
Definition sf_open (w : world) (name : string) (mode : sf_mode)
    (info : SF_INFO) (stored : list Z) : exec (option SF_INFO) :=
  call (ev_sf_open name mode info) ;;
  ret (if w_sf_open w name mode then
         Some match mode with
              | SFM_READ =>
                  {| frames := Z.of_nat (List.length stored);
                     samplerate := samplerate info;
                     channels := channels info; format := format info;
                     sections := 1; seekable := 1 |}
              | SFM_WRITE => info
              end
       else None).

(** Writing [src] over the first cells of a block. *)
Definition overwrite (src block : list (cell float)) : list (cell float) :=
  src ++ skipn (List.length src) block.

(** [sf_readf_float(file, ptr, n)]: the frames delivered, at most [n] and
    at most those stored, are converted into the first cells of the block. *)
Definition sf_readf_float (w : world) (name : string) (stored : list Z)
    (ptr : buffer float) (n : Z) : exec (buffer float) :=
  let count :=
    Z.max 0 (Z.min (w_readf w n) (Z.min n (Z.of_nat (List.length stored)))) in
  let read :=
    map (fun x => Val (short_to_float x)) (firstn (Z.to_nat count) stored) in
  match ptr with
  | None =>
      if 0 <? count then undefined
      else call (ev_sf_readf_float name None n) ;; ret None
  | Some block =>
      if Z.of_nat (List.length block) <? count then undefined
      else
        let ptr' := Some (overwrite read block) in
        call (ev_sf_readf_float name ptr' n) ;; ret ptr'
  end.

(** [src_simple(&data, SRC_SINC_FASTEST, 1)]: a null buffer is refused with
    an error code; otherwise the frames generated, never more than
    [output_frames], are written at the start of [data_out].  The return
    value and [output_frames_gen] are not read by the caller. *)
Definition src_simple (data : SRC_DATA float) : exec (buffer float) :=
  call (ev_src_simple data) ;;
  match data_in data, data_out data with
  | Some src, Some dst =>
      let given := firstn (Z.to_nat (input_frames data)) src in
      let room := Z.to_nat (output_frames data) in
      let generated :=
        firstn (Nat.min room (List.length dst))
               (sinc_fastest given (output_frames data) (src_ratio data)) in
      ret (Some (overwrite generated dst))
  | _, _ => ret (data_out data)
  end.

(** [memcpy(dst, src, n * sizeof(float))]: nothing is copied for no
    frames; otherwise both blocks must hold [n] cells. *)
Definition memcpy (dst src : buffer float) (n : Z) : exec (buffer float) :=
  if n =? 0 then ret dst
  else
    match dst, src with
    | Some d, Some s =>
        if (0 <? n) && (n <=? Z.of_nat (List.length d))
           && (n <=? Z.of_nat (List.length s))
        then ret (Some (overwrite (firstn (Z.to_nat n) s) d))
        else undefined
    | _, _ => undefined
    end.

(** [sf_writef_float(file, ptr, n)]: the library takes [n] frames from
    the buffer, none when [n] is not positive. *)
Definition sf_writef_float (name : string) (ptr : buffer float) (n : Z)
  : exec unit :=
  if n <=? 0 then call (ev_sf_writef_float name [] n)
  else
    match ptr with
    | Some block =>
        if n <=? Z.of_nat (List.length block)
        then call (ev_sf_writef_float name (firstn (Z.to_nat n) block) n)
        else undefined
    | None => undefined
    end.

(** The name in a [char] array that was never written is indeterminate. *)
Definition initialised (name : option string) : exec string :=
  match name with
  | Some n => ret n
  | None => undefined
  end.

(** ** app_exec *)

(** The locals that the configuration file sets, with their initial
    values.  [target_sample_rate] is a [double] that only ever holds the
    initial 8000 or the [int] of [atoi], both exact. *)
Record settings : Type := {
  usecache : Z;
  cachedir : string;
  target_sample_rate : Z;
  speed : Z;
  volume : Z;
  wordgap : Z;
  pitch : Z;
  capind : Z;
  voice : string
}.

Definition defaults : settings :=
  {| usecache := 0; cachedir := "/tmp"; target_sample_rate := 8000;
     speed := 150; volume := 100; wordgap := 1; pitch := 50; capind := 0;
     voice := "default" |}.

(** [if ((temp = ast_variable_retrieve(cfg, category, variable))) x = f(temp);] *)
Definition retrieve {A : Type} (cfg : ast_config) (category variable : string)
    (f : string -> A) (x : A) : A :=
  match ast_variable_retrieve cfg category variable with
  | Some temp => f temp
  | None => x
  end.

Definition read_config (cfg : ast_config) : settings :=
  {| usecache := retrieve cfg "general" "usecache" ast_true (usecache defaults);
     cachedir := retrieve cfg "general" "cachedir" (fun temp => temp) "/tmp";
     target_sample_rate :=
       retrieve cfg "general" "samplerate" atoi (target_sample_rate defaults);
     speed := retrieve cfg "voice" "speed" atoi (speed defaults);
     wordgap := retrieve cfg "voice" "wordgap" atoi (wordgap defaults);
     volume := retrieve cfg "voice" "volume" atoi (volume defaults);
     pitch := retrieve cfg "voice" "pitch" atoi (pitch defaults);
     capind := retrieve cfg "voice" "capind" atoi (capind defaults);
     voice := retrieve cfg "voice" "voice" (fun temp => temp) (voice defaults) |}.

(** [target_sample_rate != 8000 && target_sample_rate != 16000] *)
Definition unsupported (rate : Z) : bool :=
  negb (rate =? 8000) && negb (rate =? 16000).

(** Lines 152-157: an unsupported rate falls back to 8000Hz. *)
Definition supported_rate (rate : Z) : exec Z :=
  if unsupported rate then
    ast_log LOG_WARNING
      "eSpeak: Unsupported sample rate: %lf. Falling back to 8000Hz\n"
      [arg_lf rate] ;;
    ret 8000
  else ret rate.

(** Lines 163-188, the cache mechanism: [writecache] and [cachefile], or
    the return after the cached file was played. *)
Definition cache_mechanism (w : world) (usecache : Z) (cachedir : string)
    (args : app_args) : exec (bool * string) :=
  if usecache =? 0 then ret (false, "")
  else
    let MD5_name := ast_md5_hash (text args) in
    if strlen cachedir + strlen MD5_name + 5 <=? MAXLEN then
      ast_debug 1 "eSpeak: Activating cache mechanism...\n" [] ;;
      let cachefile := snprintf 2048 (cachedir ++ "/" ++ MD5_name)%string in
      if w_fileexists w cachefile <=? 0 then
        ast_debug 1 "eSpeak: Cache file does not yet exist.\n" [] ;;
        ret (true, cachefile)
      else
        ast_debug 1 "eSpeak: Cache file exists.\n" [] ;;
        answer_unless_up w ;;
        res <- ast_streamfile w cachefile ;;
        if negb (res =? 0) then
          ast_log LOG_ERROR "eSpeak: ast_streamfile failed on %s\n"
                  [arg_s (Some (w_chan_name w))] ;;
          ret (false, cachefile)
        else
          res <- ast_waitstream w (interrupt args) ;;
          call ev_ast_stopstream ;;
          ast_config_destroy ;;
          return_ res
    else ret (false, "").

(** Lines 190-200: [raw_name] and [wav_name]; both arrays are written
    only under one of the two tests. *)
Definition temp_names (target_sample_rate : Z) (tmp_name : string)
  : option string * option string :=
  let names := (None, None) in
  let names :=
    if target_sample_rate =? 16000 then
      (Some (snprintf 29 (tmp_name ++ ".raw")%string),
       Some (snprintf 29 (tmp_name ++ ".wav16")%string))
    else names in
  if target_sample_rate =? 8000 then
    (Some (snprintf 29 (tmp_name ++ ".raw")%string),
     Some (snprintf 29 (tmp_name ++ ".wav")%string))
  else names.

(** Line 256: [src_info.frames * (sf_count_t)target_sample_rate /
    (sf_count_t)sample_rate] in 64-bit signed arithmetic; the division of C
    truncates. *)
Definition dst_frames (src_frames target_sample_rate sample_rate : Z) : Z :=
  wrap64 (Z.quot (wrap64 (src_frames * target_sample_rate)) sample_rate).

(** Lines 254-276: the raw samples are read, resampled or copied, and
    written to the wav file. *)
Definition resample (w : world) (raw_name wav_name : string) (stored : list Z)
    (src_info : SF_INFO) (sample_rate target_sample_rate : Z) : exec unit :=
  src <- malloc w (frames src_info) ;;
  src <- sf_readf_float w raw_name stored src (frames src_info) ;;
  if sample_rate =? 0 then undefined
  else
    let dst_info_frames :=
      dst_frames (frames src_info) target_sample_rate sample_rate in
    dst <- malloc w dst_info_frames ;;
    dst <- (if negb (sample_rate =? target_sample_rate) then
              src_simple {| data_in := src; data_out := dst;
                            input_frames := frames src_info;
                            output_frames := dst_info_frames;
                            src_ratio := (target_sample_rate, sample_rate) |}
            else memcpy dst src dst_info_frames) ;;
    sf_writef_float wav_name dst dst_info_frames ;;
    call (ev_sf_write_sync wav_name) ;;
    call (ev_sf_close raw_name) ;;
    call (ev_sf_close wav_name) ;;
    call (ev_remove raw_name).

Definition app_exec_body (w : world) (data : option string) : exec Z :=
  if ast_strlen_zero data then
    ast_log LOG_ERROR "eSpeak requires an argument (text)\n" [] ;;
    return_ (-1)
  else
    cfg <- ast_config_load w ESPEAK_CONFIG ;;
    st <- match cfg with
          | None =>
              ast_log LOG_WARNING
                "eSpeak: No such configuration file %s using default settings\n"
                [arg_s (Some ESPEAK_CONFIG)] ;;
              ret defaults
          | Some cfg => ret (read_config cfg)
          end ;;
    let mydata := match data with Some d => d | None => "" end in
    let args := AST_STANDARD_APP_ARGS mydata in
    let args :=
      match interrupt args with
      | Some keys =>
          if strcasecmp_eq keys "any"
          then {| text := text args; interrupt := Some AST_DIGIT_ANY;
                  language := language args |}
          else args
      | None => args
      end in
    let voice :=
      if negb (ast_strlen_zero (language args))
      then match language args with Some l => l | None => voice st end
      else voice st in
    target_sample_rate <- supported_rate (target_sample_rate st) ;;
    ast_debug 1
      "eSpeak:\nText passed: %s\nInterrupt key(s): %s\nLanguage: %s\nRate: %lf\n"
      [arg_s (Some (text args)); arg_s (interrupt args); arg_s (Some voice);
       arg_lf target_sample_rate] ;;
    (* Cache mechanism *)
    cache <- cache_mechanism w (usecache st) (cachedir st) args ;;
    let writecache := fst cache in
    let cachefile := snd cache in
    (* Create temp filenames *)
    let tmp_name :=
      snprintf 25 ("/tmp/eSpeak_" ++ format_li (w_random w))%string in
    let raw_name := fst (temp_names target_sample_rate tmp_name) in
    let wav_name := snd (temp_names target_sample_rate tmp_name) in
    (* Invoke eSpeak *)
    call ev_espeak_Initialize ;;
    let sample_rate := w_espeak_Initialize w in
    if sample_rate =? -1 then
      ast_log LOG_ERROR "eSpeak: Internal espeak error, aborting.\n" [] ;;
      ast_config_destroy ;;
      return_ (-1)
    else
      call ev_espeak_SetSynthCallback ;;
      call (ev_espeak_SetVoiceByName voice) ;;
      call (ev_espeak_SetParameter espeakRATE (speed st)) ;;
      call (ev_espeak_SetParameter espeakVOLUME (volume st)) ;;
      call (ev_espeak_SetParameter espeakWORDGAP (wordgap st)) ;;
      call (ev_espeak_SetParameter espeakPITCH (pitch st)) ;;
      call (ev_espeak_SetParameter espeakCAPITALS (capind st)) ;;
      raw_name <- initialised raw_name ;;
      fl <- fopen w raw_name ;;
      if negb fl then
        ast_log LOG_ERROR "eSpeak: Failed to create audio buffer file '%s'\n"
                [arg_s (Some raw_name)] ;;
        ast_config_destroy ;;
        return_ (-1)
      else
        call (ev_espeak_Synth (text args) (strlen (text args))) ;;
        (* synth_callback: fwrite(wav, sizeof(short), numsamples, fl) *)
        let stored :=
          w_wave w {| s_voice := voice; s_rate := speed st;
                      s_volume := volume st; s_wordgap := wordgap st;
                      s_pitch := pitch st; s_capitals := capind st |}
                 (text args) in
        call ev_espeak_Terminate ;;
        call (ev_fclose raw_name) ;;
        (* Copy raw data to wav file *)
        let src_info :=
          {| frames := 0; samplerate := sample_rate; channels := 1;
             format := RAW_PCM_S16LE; sections := 0; seekable := 0 |} in
        src_file <- sf_open w raw_name SFM_READ src_info stored ;;
        match src_file with
        | None =>
            ast_log LOG_ERROR "eSpeak: Failed to read raw audio data '%s'\n"
                    [arg_s (Some raw_name)] ;;
            ast_config_destroy ;;
            call (ev_remove raw_name) ;;
            return_ (-1)
        | Some src_info =>
            let dst_info :=
              {| frames := frames src_info; samplerate := target_sample_rate;
                 channels := channels src_info; format := WAV_PCM_S16LE;
                 sections := sections src_info;
                 seekable := seekable src_info |} in
            wav_name <- initialised wav_name ;;
            dst_file <- sf_open w wav_name SFM_WRITE dst_info stored ;;
            match dst_file with
            | None =>
                ast_log LOG_ERROR "eSpeak: Failed to create wav audio file '%s'\n"
                        [arg_s (Some wav_name)] ;;
                ast_config_destroy ;;
                call (ev_sf_close raw_name) ;;
                call (ev_remove raw_name) ;;
                return_ (-1)
            | Some _ =>
                resample w raw_name wav_name stored src_info sample_rate
                         target_sample_rate ;;
                (* Save file to cache if set *)
                (if writecache : bool then
                   ast_debug 1 "eSpeak: Saving cache file %s\n"
                             [arg_s (Some cachefile)] ;;
                   call (ev_ast_filecopy tmp_name cachefile)
                 else ret tt) ;;
                answer_unless_up w ;;
                res <- ast_streamfile w tmp_name ;;
                res <- (if negb (res =? 0) then
                          ast_log LOG_ERROR "eSpeak: ast_streamfile failed on %s\n"
                                  [arg_s (Some (w_chan_name w))] ;;
                          ret res
                        else
                          res <- ast_waitstream w (interrupt args) ;;
                          call ev_ast_stopstream ;;
                          ret res) ;;
                call (ev_ast_filedelete tmp_name) ;;
                ast_config_destroy ;;
                return_ res
            end
        end.

(** The result of a call: the value returned, or [None] after undefined
    behaviour. *)
Definition result_of (r : step Z) : option Z :=
  match r with
  | Next rc | Return rc => Some rc
  | Undefined => None
  end.

Definition initial (w : world) : state :=
  {| trace := []; chan_up := w_chan_up w; mallocs := 0 |}.

(** [app_exec(chan, data)]: the result and the calls made, in order. *)
Definition app_exec (w : world) (data : option string)
  : option Z * list event :=
  let (r, s) := app_exec_body w data (initial w) in
  (result_of r, rev (trace s)).

End Model.

Arguments Return {A} rc.
Arguments Undefined {A}.
Arguments event : clear implicits.
Arguments state : clear implicits.
Arguments exec : clear implicits.

(** ** A host and worlds to run the model *)

Module Sample.

(** [float] as the exact rational: a 16-bit sample [x] is read as
    [x / 32768]. *)
Definition q_of_short (x : Z) : Z * positive := (x, 32768%positive).

(** A stand-in for the resampler: frame [i] of the output holds the input
    frame at [i / ratio], for as many frames as the input covers. *)
Definition hold_resampler (src : list (cell (Z * positive))) (room : Z)
    (ratio : Z * Z) : list (cell (Z * positive)) :=
  let (num, den) := ratio in
  let n := Z.min room (Z.of_nat (List.length src) * num / den) in
  map (fun i => nth (Z.to_nat (Z.of_nat i * den / num)) src Undef)
      (seq 0 (Z.to_nat n)).

Definition true_words : list string := ["yes"; "true"; "y"; "t"; "1"; "on"].

Definition sample_ast_true (s : string) : Z :=
  if existsb (strcasecmp_eq s) true_words then -1 else 0.

(** The text up to the first comma, and what follows the comma. *)
Fixpoint split_comma (s : string) : string * option string :=
  match s with
  | EmptyString => (EmptyString, None)
  | String c r =>
      if Ascii.eqb c "," then (EmptyString, Some r)
      else let (a, b) := split_comma r in (String c a, b)
  end.

(** The arguments separated at commas, without quoting. *)
Definition standard_app_args (s : string) : app_args :=
  let (t, r) := split_comma s in
  match r with
  | None => {| text := t; interrupt := None; language := None |}
  | Some r =>
      let (i, l) := split_comma r in
      {| text := t; interrupt := Some i; language := l |}
  end.

#[export] Instance sample_host : Host (Z * positive) :=
  {| short_to_float := q_of_short;
     sinc_fastest := hold_resampler;
     ast_true := sample_ast_true;
     (* a stand-in of the length of an MD5 digest in hexadecimal *)
     ast_md5_hash := fun _ => "d41d8cd98f00b204e9800998ecf8427e";
     AST_STANDARD_APP_ARGS := standard_app_args |}.

(** A configuration with one variable, [samplerate] in [general]. *)
Definition config_rate (rate : string) : ast_config :=
  fun category variable =>
    if String.eqb category "general" && String.eqb variable "samplerate"
    then Some rate else None.

(** A call in which every collaborator succeeds: the engine runs at
    [rate] and synthesises [wave], the channel is up and the stream plays
    to its end. *)
Definition fine (cfg : option ast_config) (rate : Z) (wave : list Z) : world :=
  {| w_config := cfg;
     w_chan_up := true;
     w_chan_name := "SIP/100";
     w_answer := true;
     w_fileexists := fun _ => 0;
     w_streamfile := fun _ => 0;
     w_waitstream := 0;
     w_random := 1804289383;
     w_espeak_Initialize := rate;
     w_wave := fun _ _ => wave;
     w_fopen := fun _ => true;
     w_sf_open := fun _ _ => true;
     w_malloc := fun _ => true;
     w_readf := fun n => n |}.

(** The same call on another channel, not yet answered, with other
    temporary names. *)
Definition elsewhere (w : world) : world :=
  {| w_config := w_config w;
     w_chan_up := false;
     w_chan_name := "SIP/200";
     w_answer := w_answer w;
     w_fileexists := w_fileexists w;
     w_streamfile := w_streamfile w;
     w_waitstream := w_waitstream w;
     w_random := 846930886;
     w_espeak_Initialize := w_espeak_Initialize w;
     w_wave := w_wave w;
     w_fopen := w_fopen w;
     w_sf_open := w_sf_open w;
     w_malloc := w_malloc w;
     w_readf := w_readf w |}.

(** The call when only the first [malloc] returns a block. *)
Definition one_block (w : world) : world :=
  {| w_config := w_config w;
     w_chan_up := w_chan_up w;
     w_chan_name := w_chan_name w;
     w_answer := w_answer w;
     w_fileexists := w_fileexists w;
     w_streamfile := w_streamfile w;
     w_waitstream := w_waitstream w;
     w_random := w_random w;
     w_espeak_Initialize := w_espeak_Initialize w;
     w_wave := w_wave w;
     w_fopen := w_fopen w;
     w_sf_open := w_sf_open w;
     w_malloc := fun k => Nat.eqb k 0;
     w_readf := w_readf w |}.

(** The call when [sf_readf_float] delivers [k] frames only. *)
Definition short_read (k : Z) (w : world) : world :=
  {| w_config := w_config w;
     w_chan_up := w_chan_up w;
     w_chan_name := w_chan_name w;
     w_answer := w_answer w;
     w_fileexists := w_fileexists w;
     w_streamfile := w_streamfile w;
     w_waitstream := w_waitstream w;
     w_random := w_random w;
     w_espeak_Initialize := w_espeak_Initialize w;
     w_wave := w_wave w;
     w_fopen := w_fopen w;
     w_sf_open := w_sf_open w;
     w_malloc := w_malloc w;
     w_readf := fun _ => k |}.

(** The call when the engine does not initialise. *)
Definition no_engine (w : world) : world :=
  {| w_config := w_config w;
     w_chan_up := w_chan_up w;
     w_chan_name := w_chan_name w;
     w_answer := w_answer w;
     w_fileexists := w_fileexists w;
     w_streamfile := w_streamfile w;
     w_waitstream := w_waitstream w;
     w_random := w_random w;
     w_espeak_Initialize := -1;
     w_wave := w_wave w;
     w_fopen := w_fopen w;
     w_sf_open := w_sf_open w;
     w_malloc := w_malloc w;
     w_readf := w_readf w |}.

(** The call when no file can be created. *)
Definition no_fopen (w : world) : world :=
  {| w_config := w_config w;
     w_chan_up := w_chan_up w;
     w_chan_name := w_chan_name w;
     w_answer := w_answer w;
     w_fileexists := w_fileexists w;
     w_streamfile := w_streamfile w;
     w_waitstream := w_waitstream w;
     w_random := w_random w;
     w_espeak_Initialize := w_espeak_Initialize w;
     w_wave := w_wave w;
     w_fopen := fun _ => false;
     w_sf_open := w_sf_open w;
     w_malloc := w_malloc w;
     w_readf := w_readf w |}.

(** The call when [sf_open] succeeds in the mode [ok] only. *)
Definition sf_open_only (ok : sf_mode -> bool) (w : world) : world :=
  {| w_config := w_config w;
     w_chan_up := w_chan_up w;
     w_chan_name := w_chan_name w;
     w_answer := w_answer w;
     w_fileexists := w_fileexists w;
     w_streamfile := w_streamfile w;
     w_waitstream := w_waitstream w;
     w_random := w_random w;
     w_espeak_Initialize := w_espeak_Initialize w;
     w_wave := w_wave w;
     w_fopen := w_fopen w;
     w_sf_open := fun _ mode => ok mode;
     w_malloc := w_malloc w;
     w_readf := w_readf w |}.

Definition reading (mode : sf_mode) : bool :=
  match mode with SFM_READ => true | SFM_WRITE => false end.



(** Three frames at 16000 Hz for 8000 Hz. *)
Definition halved : world :=
  fine (Some (config_rate "8000")) 16000 [1; 2; 3].

(** No configuration file: six frames at 22050 Hz for the default
    8000 Hz. *)
Definition plain : world := fine None 22050 [100; 200; 300; 400; 500; 600].

(** Two frames at 22050 Hz for the default 8000 Hz. *)
Definition two_frames : world := fine None 22050 [1; 2].

End Sample.

(** ** What the calls of a run are expected to be *)

Section Expectations.

Context {float : Type} {host : Host float}.

(** [extends P old new]: [new] is [old] with later calls in front of it,
    each of them satisfying [P]. *)
Inductive extends (P : event float -> Prop) (old : list (event float))
  : list (event float) -> Prop :=
| extends_refl : extends P old old
| extends_cons e l : P e -> extends P old l -> extends P old (e :: l).

(** Run from [s], the program [m] adds only calls that satisfy [P]. *)
Definition emits {A : Type} (P : event float -> Prop) (m : exec float A)
    (s : state float) : Prop :=
  extends P (trace s) (trace (snd (m s))).

(** The settings after lines 108-141. *)
Definition settings_of (w : world) : settings :=
  match w_config w with
  | Some cfg => read_config cfg
  | None => defaults
  end.

(** The rate that the configuration asks for (line 122), 8000 without. *)
Definition configured_rate (w : world) : Z :=
  target_sample_rate (settings_of w).

(** The value of [target_sample_rate] from line 158 on. *)
Definition rate_in_effect (w : world) : Z :=
  if unsupported (configured_rate w) then 8000 else configured_rate w.

Definition tmp_file (w : world) : string :=
  snprintf 25 ("/tmp/eSpeak_" ++ format_li (w_random w))%string.

Definition raw_file (w : world) : string :=
  snprintf 29 (tmp_file w ++ ".raw")%string.

Definition wav_file (w : world) : string :=
  snprintf 29 (String.append (tmp_file w)
                 (if rate_in_effect w =? 16000 then ".wav16" else ".wav")).

(** The cells behind a pointer, none behind the null pointer. *)
Definition cells (ptr : buffer float) : list (cell float) :=
  match ptr with
  | Some block => block
  | None => []
  end.

(** The frames that reach [sf_writef_float] when the source buffer [src]
    of [N] frames at [sample_rate] is converted to [rate]; [None] when the
    call is not reached. *)
Definition converted (src : buffer float) (N sample_rate rate : Z)
  : option (list (cell float)) :=
  let n := dst_frames N rate sample_rate in
  if n <=? 0 then Some []
  else if sample_rate =? rate then
    match src with
    | Some block =>
        if n <=? Z.of_nat (List.length block)
        then Some (firstn (Z.to_nat n) block) else None
    | None => None
    end
  else
    let generated :=
      match src with
      | Some block =>
          firstn (Z.to_nat n)
                 (sinc_fastest (firstn (Z.to_nat N) block) n (rate, sample_rate))
      | None => []
      end in
    Some (generated ++ repeat Undef (Z.to_nat n - List.length generated)).

(** What a call of the audio pipeline looks like in a run in world [w]
    whose source buffer is [src0], of [N0] frames. *)
Definition expected (w : world) (src0 : buffer float) (N0 : Z)
    (e : event float) : Prop :=
  let sample_rate := w_espeak_Initialize w in
  let rate := rate_in_effect w in
  match e with
  | ev_fopen name => name = raw_file w
  | ev_sf_open name SFM_READ info =>
      name = raw_file w /\ samplerate info = sample_rate /\
      channels info = 1 /\ format info = RAW_PCM_S16LE
  | ev_sf_open name SFM_WRITE info =>
      name = wav_file w /\ samplerate info = rate /\
      channels info = 1 /\ format info = WAV_PCM_S16LE
  | ev_sf_readf_float name src N =>
      name = raw_file w /\ src = src0 /\ N = N0 /\ 0 <= N /\
      (forall block, src = Some block -> Z.of_nat (List.length block) = N)
  | ev_src_simple d =>
      data_in d = src0 /\ input_frames d = N0 /\
      output_frames d = dst_frames N0 rate sample_rate /\
      src_ratio d = (rate, sample_rate) /\ sample_rate <> rate
  | ev_sf_writef_float name out n =>
      name = wav_file w /\ n = dst_frames N0 rate sample_rate /\
      converted src0 N0 sample_rate rate = Some out
  | _ => True
  end.

(** The stage of the audio pipeline that a call belongs to, numbered in
    the order of the source; 0 for the calls outside the pipeline. *)
Definition stage (e : event float) : nat :=
  match e with
  | ev_espeak_Initialize => 1
  | ev_fopen _ => 2
  | ev_espeak_Synth _ _ => 3
  | ev_sf_open _ SFM_READ _ => 4
  | ev_sf_open _ SFM_WRITE _ => 5
  | ev_sf_readf_float _ _ _ | ev_src_simple _ | ev_sf_writef_float _ _ _ => 6
  | _ => 0
  end.

(** The calls of the stages before [k]. *)
Definition before (k : nat) (e : event float) : Prop :=
  (stage e <? k)%nat = true.

(** The calls of the pipeline: they start the engine, name a temporary
    file, run the synthesiser or handle the audio. *)
Definition is_audio (e : event float) : bool := (0 <? stage e)%nat.

(** The debug line of line 159, which prints the rate in effect. *)
Definition debug_parameters (txt intkeys voice : option string) (rate : Z)
  : event float :=
  ev_ast_debug 1
    "eSpeak:\nText passed: %s\nInterrupt key(s): %s\nLanguage: %s\nRate: %lf\n"
    [arg_s txt; arg_s intkeys; arg_s voice; arg_lf rate].

(** The warning of line 153. *)
Definition unsupported_warning (rate : Z) : event float :=
  ev_ast_log LOG_WARNING
    "eSpeak: Unsupported sample rate: %lf. Falling back to 8000Hz\n"
    [arg_lf rate].

(** The calls of lines 108-157: the configuration is loaded, with a
    warning when there is none and a warning when the rate is not
    supported. *)
Definition prelude (w : world) : list (event float) :=
  ev_ast_config_load ESPEAK_CONFIG ::
  match w_config w with
  | Some _ => []
  | None =>
      [ev_ast_log LOG_WARNING
         "eSpeak: No such configuration file %s using default settings\n"
         [arg_s (Some ESPEAK_CONFIG)]]
  end ++
  (if unsupported (configured_rate w)
   then [unsupported_warning (configured_rate w)] else []).

(** Run from [s], the program [m] either adds only calls that satisfy
    [quiet], or it returns -1 and the latest calls are a tail [t] with
    [T t], after calls that satisfy [quiet]. *)
Definition stops {A : Type} (quiet : event float -> Prop)
    (T : list (event float) -> Prop) (m : exec float A) (s : state float)
  : Prop :=
  emits quiet m s \/
  (fst (m s) = Return (-1) /\
   exists t l, trace (snd (m s)) = t ++ l /\ T t /\ extends quiet (trace s) l).

(** The calls of the four error returns of lines 205-253, from the call
    that failed on. *)
Definition engine_failure : list (event float) :=
  [ev_espeak_Initialize;
   ev_ast_log LOG_ERROR "eSpeak: Internal espeak error, aborting.\n" [];
   ev_ast_config_destroy].

Definition fopen_failure (raw_name : string) : list (event float) :=
  [ev_fopen raw_name;
   ev_ast_log LOG_ERROR "eSpeak: Failed to create audio buffer file '%s'\n"
              [arg_s (Some raw_name)];
   ev_ast_config_destroy].

Definition raw_open_failure (raw_name : string) (info : SF_INFO)
  : list (event float) :=
  [ev_sf_open raw_name SFM_READ info;
   ev_ast_log LOG_ERROR "eSpeak: Failed to read raw audio data '%s'\n"
              [arg_s (Some raw_name)];
   ev_ast_config_destroy;
   ev_remove raw_name].

Definition wav_open_failure (raw_name wav_name : string) (info : SF_INFO)
  : list (event float) :=
  [ev_sf_open wav_name SFM_WRITE info;
   ev_ast_log LOG_ERROR "eSpeak: Failed to create wav audio file '%s'\n"
              [arg_s (Some wav_name)];
   ev_ast_config_destroy;
   ev_sf_close raw_name;
   ev_remove raw_name].

(** [a / b] rounded to the nearest whole number, a half away from zero,
    for [0 <= a] and [0 < b]. *)
Definition round_div (a b : Z) : Z := (2 * a + b) / (2 * b).

End Expectations.

(** ** The callback of the synthesiser *)

(** [fwrite(ptr, sizeof(short), nmemb, stream)] on a stream that takes
    what it is given: the first [nmemb] samples of the block are appended.
    [None] when that reads past the end of the block, which is undefined.
    The count that [fwrite] returns is not read by the caller. *)
Definition fwrite (ptr : list Z) (nmemb : Z) (stream : list Z)
  : option (list Z) :=
  if (0 <=? nmemb) && (nmemb <=? Z.of_nat (List.length ptr))
  then Some (stream ++ firstn (Z.to_nat nmemb) ptr)
  else None.

(** [synth_callback(wav, numsamples, events)]: the value returned and the
    file behind [events[0].user_data] after the call; [wav] is [None] for
    the null pointer. *)
Definition synth_callback (wav : option (list Z)) (numsamples : Z)
    (user_data : list Z) : option (Z * list Z) :=
  match wav with
  | Some block =>
      match fwrite block numsamples user_data with
      | Some fl => Some (0, fl)
      | None => None
      end
  | None => Some (0, user_data)
  end.

(** What the engine hands to one call of the callback. *)
Record chunk : Type := {
  c_wav : option (list Z);
  c_numsamples : Z
}.

(** [espeak_Synth] in synchronous mode as speak_lib.h describes it: the
    callback is called with one chunk after the other, until it returns a
    value other than 0. *)
Fixpoint synthesis
    (callback : option (list Z) -> Z -> list Z -> option (Z * list Z))
    (chunks : list chunk) (fl : list Z) : option (list Z) :=
  match chunks with
  | [] => Some fl
  | c :: rest =>
      match callback (c_wav c) (c_numsamples c) fl with
      | Some (r, fl') =>
          if r =? 0 then synthesis callback rest fl' else Some fl'
      | None => None
      end
  end.

(** The samples of a chunk, and a chunk whose samples lie in its block. *)
Definition samples_of (c : chunk) : list Z :=
  match c_wav c with
  | Some block => firstn (Z.to_nat (c_numsamples c)) block
  | None => []
  end.

Definition in_block (c : chunk) : Prop :=
  match c_wav c with
  | Some block => 0 <= c_numsamples c <= Z.of_nat (List.length block)
  | None => True
  end.

(** ** What the calls of a run carry *)

Section Conduct.

Context {float : Type} {host : Host float}.

(** The arguments after lines 143-147. *)
Definition arguments_of (data : option string) : app_args :=
  let args :=
    AST_STANDARD_APP_ARGS (match data with Some d => d | None => "" end) in
  match interrupt args with
  | Some keys =>
      if strcasecmp_eq keys "any"
      then {| text := text args; interrupt := Some AST_DIGIT_ANY;
              language := language args |}
      else args
  | None => args
  end.

(** The voice after line 150. *)
Definition voice_in_effect (w : world) (data : option string) : string :=
  if negb (ast_strlen_zero (language (arguments_of data)))
  then match language (arguments_of data) with
       | Some l => l
       | None => voice (settings_of w)
       end
  else voice (settings_of w).

(** The value that lines 212-216 give to a parameter of the engine. *)
Definition parameter_in_effect (w : world) (p : espeak_PARAMETER) : Z :=
  match p with
  | espeakRATE => speed (settings_of w)
  | espeakVOLUME => volume (settings_of w)
  | espeakWORDGAP => wordgap (settings_of w)
  | espeakPITCH => pitch (settings_of w)
  | espeakCAPITALS => capind (settings_of w)
  end.



(** The tests of lines 164 and 166. *)
Definition cache_in_use (w : world) (data : option string) : Prop :=
  usecache (settings_of w) <> 0 /\
  strlen (cachedir (settings_of w))
  + strlen (ast_md5_hash (text (arguments_of data))) + 5 <= MAXLEN.

(** [cachefile] after line 168. *)
Definition cache_file (w : world) (data : option string) : string :=
  snprintf 2048
    (cachedir (settings_of w) ++ "/"
     ++ ast_md5_hash (text (arguments_of data)))%string.

(** What the calls of a run in world [w] on the argument [data] carry. *)
Definition conduct (w : world) (data : option string) (e : event float)
  : Prop :=
  match e with
  | ev_ast_config_load file => file = ESPEAK_CONFIG
  | ev_espeak_SetVoiceByName name => name = voice_in_effect w data
  | ev_espeak_SetParameter p value => value = parameter_in_effect w p
  | ev_espeak_Synth txt size =>
      txt = text (arguments_of data) /\ size = strlen txt
  | ev_ast_waitstream intkeys => intkeys = interrupt (arguments_of data)
  | ev_ast_streamfile file =>
      file = tmp_file w \/
      (file = cache_file w data /\ cache_in_use w data /\
       0 < w_fileexists w file)
  | ev_ast_filecopy from to =>
      from = tmp_file w /\ to = cache_file w data /\ cache_in_use w data /\
      w_fileexists w to <= 0
  | ev_ast_filedelete file => file = tmp_file w
  | ev_fclose name | ev_remove name => name = raw_file w
  | ev_sf_close name => name = raw_file w \/ name = wav_file w
  | ev_sf_write_sync name => name = wav_file w
  | _ => True
  end.

(** Run from [s], the program [m] either adds only calls that satisfy
    [quiet], or it returns some [rc] and the latest calls are a tail [t]
    with [T rc t], after calls that satisfy [quiet]. *)
Definition ends {A : Type} (quiet : event float -> Prop)
    (T : Z -> list (event float) -> Prop) (m : exec float A)
    (s : state float) : Prop :=
  emits quiet m s \/
  (exists rc t l,
     fst (m s) = Return rc /\ trace (snd (m s)) = t ++ l /\ T rc t /\
     extends quiet (trace s) l).

(** Lines 286-292: what the call returns after the wav file was played. *)
Definition playback_result (w : world) : Z :=
  if w_streamfile w (tmp_file w) =? 0 then w_waitstream w
  else w_streamfile w (tmp_file w).

(** The calls of lines 271-295, from [sf_write_sync] on: the files are
    closed, the raw file is removed, the wav file is copied to the cache
    ([copy]), the channel is answered ([answer]), the wav file is played
    and deleted. *)
Definition playback (w : world) (data : option string) (copy answer : bool)
  : list (event float) :=
  [ev_sf_write_sync (wav_file w); ev_sf_close (raw_file w);
   ev_sf_close (wav_file w); ev_remove (raw_file w)] ++
  (if copy then
     [ev_ast_debug 1 "eSpeak: Saving cache file %s\n"
                   [arg_s (Some (cache_file w data))];
      ev_ast_filecopy (tmp_file w) (cache_file w data)]
   else []) ++
  (if answer then [ev_ast_answer] else []) ++
  ev_ast_streamfile (tmp_file w) ::
  (if w_streamfile w (tmp_file w) =? 0 then
     [ev_ast_waitstream (interrupt (arguments_of data)); ev_ast_stopstream]
   else
     [ev_ast_log LOG_ERROR "eSpeak: ast_streamfile failed on %s\n"
                 [arg_s (Some (w_chan_name w))]]) ++
  [ev_ast_filedelete (tmp_file w); ev_ast_config_destroy].

(** The calls before the wav file is complete. *)
Definition unfinished (e : event float) : Prop :=
  match e with
  | ev_sf_write_sync _ => False
  | _ => True
  end.

(** *** Counting calls *)

(** Kinds of calls. *)
Definition is_config_load (e : event float) : bool :=
  match e with ev_ast_config_load _ => true | _ => false end.

Definition is_config_destroy (e : event float) : bool :=
  match e with ev_ast_config_destroy => true | _ => false end.

Definition is_fopen (e : event float) : bool :=
  match e with ev_fopen _ => true | _ => false end.

Definition is_fclose (e : event float) : bool :=
  match e with ev_fclose _ => true | _ => false end.

Definition is_remove (e : event float) : bool :=
  match e with ev_remove _ => true | _ => false end.

Definition is_sf_open (e : event float) : bool :=
  match e with ev_sf_open _ _ _ => true | _ => false end.

Definition is_sf_close (e : event float) : bool :=
  match e with ev_sf_close _ => true | _ => false end.

Definition is_engine_start (e : event float) : bool :=
  match e with ev_espeak_SetSynthCallback => true | _ => false end.

Definition is_engine_stop (e : event float) : bool :=
  match e with ev_espeak_Terminate => true | _ => false end.

(** The error line with the format [fmt]. *)
Definition is_error (fmt : string) (e : event float) : bool :=
  match e with
  | ev_ast_log LOG_ERROR f _ => String.eqb f fmt
  | _ => false
  end.

Definition fopen_error : string :=
  "eSpeak: Failed to create audio buffer file '%s'\n".

Definition raw_open_error : string :=
  "eSpeak: Failed to read raw audio data '%s'\n".

Definition wav_open_error : string :=
  "eSpeak: Failed to create wav audio file '%s'\n".

(** The number of calls of a kind. *)
Definition count (kind : event float -> bool) (l : list (event float)) : Z :=
  Z.of_nat (List.length (filter kind l)).

(** The calls of the kind [opens] that are not yet matched by one of the
    kind [closes], after one more call. *)
Definition pending (opens closes : event float -> bool) (q : Z)
    (e : event float) : Z :=
  q + (if opens e then 1 else 0) - (if closes e then 1 else 0).

(** The state of a monitor that reads the calls of a trace, the oldest
    first, from 0. *)
Definition monitor (delta : Z -> event float -> Z) (tr : list (event float))
  : Z :=
  fold_right (fun e q => delta q e) 0 tr.

(** Run from [s] with the monitor at [q], the program [m] goes on with the
    monitor at [q'], or it returns with the monitor in a state that [acc]
    accepts. *)
Definition obeys {A : Type} (delta : Z -> event float -> Z)
    (acc : Z -> bool) (q : Z) (m : exec float A) (q' : Z) (s : state float)
  : Prop :=
  monitor delta (trace s) = q ->
  match fst (m s) with
  | Next _ => monitor delta (trace (snd (m s))) = q'
  | Return _ => acc (monitor delta (trace (snd (m s)))) = true
  | Undefined => True
  end.

(** Calls of either kind, and of no kind. *)
Definition either (f g : event float -> bool) (e : event float) : bool :=
  f e || g e.

Definition no_call (e : event float) : bool := false.

(** *** The order of the calls *)

(** The place of a call of the engine and of a call on a file in the
    source, from line 203 on; 0 for the other calls. *)
Definition position (e : event float) : Z :=
  match e with
  | ev_espeak_Initialize => 1
  | ev_espeak_SetSynthCallback => 2
  | ev_espeak_SetVoiceByName _ => 3
  | ev_espeak_SetParameter espeakRATE _ => 4
  | ev_espeak_SetParameter espeakVOLUME _ => 5
  | ev_espeak_SetParameter espeakWORDGAP _ => 6
  | ev_espeak_SetParameter espeakPITCH _ => 7
  | ev_espeak_SetParameter espeakCAPITALS _ => 8
  | ev_fopen _ => 9
  | ev_espeak_Synth _ _ => 10
  | ev_espeak_Terminate => 11
  | ev_fclose _ => 12
  | ev_sf_open _ SFM_READ _ => 13
  | ev_sf_open _ SFM_WRITE _ => 14
  | ev_sf_readf_float _ _ _ => 15
  | ev_src_simple _ => 16
  | ev_sf_writef_float _ _ _ => 17
  | ev_sf_write_sync _ => 18
  | ev_sf_close _ => 19
  | ev_remove _ => 20
  | ev_ast_filecopy _ _ => 21
  | ev_ast_filedelete _ => 22
  | _ => 0
  end.

(** The places of the calls of a run that have one. *)
Definition positions (l : list (event float)) : list Z :=
  filter (fun k => 0 <? k) (map position l).

(** The monitor of the order: the place of the latest call that has one,
    or -1 once a call came after one of a later place. *)
Definition in_order (q : Z) (e : event float) : Z :=
  if q <? 0 then -1
  else if position e =? 0 then q
  else if q <=? position e then position e
  else -1.

(** Run from [s] with the latest place at most [q], the program [m] keeps
    the calls in order, and goes on with the latest place at most [q']. *)
Definition orderly {A : Type} (q : Z) (m : exec float A) (q' : Z)
    (s : state float) : Prop :=
  0 <= monitor in_order (trace s) <= q ->
  0 <= monitor in_order (trace (snd (m s))) /\
  (forall a, fst (m s) = Next a ->
             monitor in_order (trace (snd (m s))) <= q').

(** *** The channel *)

Definition is_answer (e : event float) : bool :=
  match e with ev_ast_answer => true | _ => false end.

(** What holds of the channel throughout a call in which [ast_answer]
    brings the channel up: a channel that is up was answered at most once,
    and not at all when it was up at entry; a channel that is not up was
    not answered yet. *)
Definition answered_as_needed (w : world) (s : state float) : Prop :=
  if chan_up s
  then count is_answer (trace s) <= (if w_chan_up w then 0 else 1)
  else w_chan_up w = false /\ count is_answer (trace s) = 0.

(** Run from a state that satisfies [I], the program [m] leaves a state
    that satisfies [I]. *)
Definition keeps {A : Type} (I : state float -> Prop) (m : exec float A)
    (s : state float) : Prop :=
  I s -> I (snd (m s)).

(** *** Undefined behaviour *)

(** Run from [s], the program [m] does not stop at undefined behaviour. *)
Definition defined {A : Type} (m : exec float A) (s : state float) : Prop :=
  fst (m s) <> Undefined.

(** *** The value returned *)

(** Run from [s], the program [m] returns only values that satisfy [R]. *)
Definition returns_in {A : Type} (R : Z -> Prop) (m : exec float A)
    (s : state float) : Prop :=
  match fst (m s) with
  | Return rc => R rc
  | _ => True
  end.

(** The same of the body of a function, whose last value is returned. *)
Definition results_in (R : Z -> Prop) (m : exec float Z) (s : state float)
  : Prop :=
  match fst (m s) with
  | Next rc | Return rc => R rc
  | Undefined => True
  end.

(** The values that [app_exec] returns: -1, what [ast_waitstream]
    returns, or what [ast_streamfile] returns for the wav file when that is
    not 0. *)
Definition playback_or_error (w : world) (rc : Z) : Prop :=
  rc = -1 \/ rc = w_waitstream w \/
  (rc <> 0 /\ rc = w_streamfile w (tmp_file w)).

End Conduct.

(** ** Further worlds to run the model *)

Module Cases.

Import Sample.

(** A configuration from a list of category, variable and value. *)
Fixpoint config_of (l : list (string * string * string))
    (category variable : string) : option string :=
  match l with
  | [] => None
  | (c, v, x) :: r =>
      if String.eqb c category && String.eqb v variable then Some x
      else config_of r category variable
  end.

(** An espeak.conf that switches the cache on. *)
Definition espeak_conf : ast_config :=
  config_of [("general", "usecache", "yes");
             ("general", "cachedir", "/var/cache/espeak");
             ("general", "samplerate", "16000");
             ("voice", "speed", "170");
             ("voice", "voice", "en-us")].

(** The call with that configuration, when [ast_fileexists] returns
    [found] for every file. *)
Definition with_cache (found : Z) (w : world) : world :=
  {| w_config := Some espeak_conf;
     w_chan_up := w_chan_up w;
     w_chan_name := w_chan_name w;
     w_answer := w_answer w;
     w_fileexists := fun _ => found;
     w_streamfile := w_streamfile w;
     w_waitstream := w_waitstream w;
     w_random := w_random w;
     w_espeak_Initialize := w_espeak_Initialize w;
     w_wave := w_wave w;
     w_fopen := w_fopen w;
     w_sf_open := w_sf_open w;
     w_malloc := w_malloc w;
     w_readf := w_readf w |}.

(** The cache holds a file for the text, on a channel not yet answered. *)
Definition cached : world := with_cache 1 (elsewhere plain).

(** The cache holds no file for the text. *)
Definition caching : world := with_cache 0 plain.

(** The path of the cache file in both. *)
Definition cached_path : string :=
  "/var/cache/espeak/d41d8cd98f00b204e9800998ecf8427e".

(** Two chunks of samples and the null block that ends the synthesis. *)
Definition three_chunks : list chunk :=
  [{| c_wav := Some [1; 2; 3]; c_numsamples := 3 |};
   {| c_wav := Some [4; 5; 0; 0]; c_numsamples := 2 |};
   {| c_wav := None; c_numsamples := 0 |}].

End Cases.

(** ** The calls a program adds to the trace *)

Unset Implicit Arguments.

Section Properties.

Context {float : Type} {host : Host float}.

Implicit Types (s : state float) (P Q : event float -> Prop).
Implicit Types (src dst ptr : buffer float) (out : list (cell float)).

Lemma extends_trans P (a b c : list (event float)) :
  extends P a b -> extends P b c -> extends P a c.
Proof.
  intros Hab Hbc. induction Hbc as [|e l He _ IH].
  - exact Hab.
  - apply extends_cons; assumption.
Qed.

Lemma extends_app P old new :
  extends P old new -> exists l, new = l ++ old /\ Forall P l.
Proof.
  induction 1 as [|e l He _ [l' [-> Hl']]].
  - exists []. split; [reflexivity | constructor].
  - exists (e :: l'). split; [reflexivity | constructor; assumption].
Qed.

Lemma extends_nil P l : extends P [] l -> Forall P l.
Proof.
  intros H. destruct (extends_app _ _ _ H) as [l' [-> Hl']].
  rewrite app_nil_r. exact Hl'.
Qed.

Lemma emits_ret {A : Type} P (a : A) s : emits P (ret a) s.
Proof. apply extends_refl. Qed.

Lemma emits_return_ {A : Type} P rc s :
  emits P (return_ rc : exec float A) s.
Proof. apply extends_refl. Qed.

Lemma emits_undefined {A : Type} P s :
  emits P (undefined : exec float A) s.
Proof. apply extends_refl. Qed.

Lemma emits_call P e s : P e -> emits P (call e) s.
Proof. intros He. apply extends_cons; [exact He | apply extends_refl]. Qed.

Lemma emits_bind {A B : Type} P (m : exec float A) (k : A -> exec float B)
    s :
  emits P m s ->
  (forall a s', m s = (Next a, s') -> emits P (k a) s') ->
  emits P (bind m k) s.
Proof.
  unfold emits, bind. intros Hm Hk.
  destruct (m s) as [[a|rc|] s'] eqn:E; simpl in *; try exact Hm.
  eapply extends_trans; [exact Hm | apply Hk; reflexivity].
Qed.

Lemma emits_answer_unless_up P w s :
  P ev_ast_answer -> emits P (answer_unless_up w) s.
Proof.
  intros H. unfold emits, answer_unless_up. destruct (chan_up s); simpl.
  - apply extends_refl.
  - apply extends_cons; [exact H | apply extends_refl].
Qed.

Lemma emits_malloc P w n s : emits P (malloc w n) s.
Proof. apply extends_refl. Qed.

(** *** Buffers *)

Lemma overwrite_length (a b : list (cell float)) :
  (List.length a <= List.length b)%nat ->
  List.length (overwrite a b) = List.length b.
Proof.
  intros H. unfold overwrite. rewrite length_app, length_skipn. lia.
Qed.

Lemma skipn_repeat_sub {A : Type} (x : A) k n :
  skipn k (repeat x n) = repeat x (n - k).
Proof.
  revert n. induction k as [|k IH]; intros [|n]; simpl; auto.
Qed.

Lemma overwrite_undef (a : list (cell float)) n :
  (List.length a <= n)%nat ->
  overwrite a (repeat Undef n) = a ++ repeat Undef (n - List.length a).
Proof.
  intros H. unfold overwrite. f_equal.
  apply skipn_repeat_sub.
Qed.

Lemma firstn_exact {A : Type} (l : list A) n :
  List.length l = n -> firstn n l = l.
Proof. intros <-. apply firstn_all. Qed.

(** *** The library calls *)

Lemma malloc_next w n s r s' :
  malloc w n s = (r, s') ->
  trace s' = trace s /\
  exists ptr, r = Next ptr /\
    (ptr = None \/ (0 <= n /\ ptr = Some (repeat Undef (Z.to_nat n)))).
Proof.
  unfold malloc. intros E. injection E as <- <-.
  split; [reflexivity|]. eexists. split; [reflexivity|].
  match goal with
  | |- context [if ?c then _ else _] => destruct c eqn:C
  end; [right | left; reflexivity].
  apply andb_prop in C as [C _]. apply andb_prop in C as [C _].
  split; [lia | reflexivity].
Qed.

Lemma sf_readf_float_next w name stored ptr n s r s' :
  (forall block, ptr = Some block -> Z.of_nat (List.length block) = n) ->
  sf_readf_float w name stored ptr n s = (r, s') ->
  (r = Undefined /\ trace s' = trace s) \/
  (exists src, r = Next src /\
     trace s' = ev_sf_readf_float name src n :: trace s /\
     (forall block, src = Some block -> Z.of_nat (List.length block) = n)).
Proof.
  intros Hlen. unfold sf_readf_float.
  set (count := Z.max 0 (Z.min (w_readf w n) _)).
  destruct ptr as [block|].
  - destruct (Z.of_nat (List.length block) <? count) eqn:C.
    + intros E. inversion E; subst. left. split; reflexivity.
    + intros E. inversion E; subst; clear E. right. eexists.
      split; [reflexivity|]. split; [reflexivity|].
      intros b Hb. inversion Hb; subst b; clear Hb.
      rewrite overwrite_length; [apply Hlen; reflexivity|].
      rewrite length_map, length_firstn. 
      specialize (Hlen block eq_refl). lia.
  - destruct (0 <? count) eqn:C.
    + intros E. inversion E; subst. left. split; reflexivity.
    + intros E. inversion E; subst; clear E. right. eexists.
      split; [reflexivity|]. split; [reflexivity|]. discriminate.
Qed.

Lemma emits_memcpy P dst src n s : emits P (memcpy dst src n) s.
Proof.
  unfold memcpy. destruct (n =? 0); [apply emits_ret|].
  destruct dst, src; try apply emits_undefined.
  destruct (_ && _); [apply emits_ret | apply emits_undefined].
Qed.

Lemma resample_emits w stored src_info s :
  0 <= frames src_info ->
  exists src0,
    emits (expected w src0 (frames src_info))
          (resample w (raw_file w) (wav_file w) stored src_info
                    (w_espeak_Initialize w) (rate_in_effect w)) s.
Proof.
  intros HN. unfold resample.
  set (N := frames src_info) in *. set (sr := w_espeak_Initialize w).
  set (rate := rate_in_effect w).
  destruct (malloc w N s) as [r1 s1] eqn:E1.
  destruct (malloc_next _ _ _ _ _ E1) as [T1 [p1 [-> Hp1]]].
  assert (Hlen1 : forall block,
             p1 = Some block -> Z.of_nat (List.length block) = N).
  { intros b Hb. destruct Hp1 as [->|[_ ->]]; [discriminate|].
    inversion Hb; subst b. rewrite repeat_length. lia. }
  destruct (sf_readf_float w (raw_file w) stored p1 N s1) as [r2 s2] eqn:E2.
  destruct (sf_readf_float_next _ _ _ _ _ _ _ _ Hlen1 E2)
    as [[-> T2]|[src [-> [T2 Hlen]]]].
  - exists None. apply emits_bind; [apply emits_malloc|].
    intros a s1' Ea. rewrite E1 in Ea. inversion Ea; subst a s1'; clear Ea.
    apply emits_bind.
    + unfold emits. rewrite E2. simpl. rewrite T2. apply extends_refl.
    + intros a s2' Ea. rewrite E2 in Ea. discriminate.
  - exists src. apply emits_bind; [apply emits_malloc|].
    intros a s1' Ea. rewrite E1 in Ea. inversion Ea; subst a s1'; clear Ea.
    apply emits_bind.
    + unfold emits. rewrite E2. simpl. rewrite T2.
      apply extends_cons; [|apply extends_refl].
      simpl. auto.
    + intros a s2' Ea. rewrite E2 in Ea. inversion Ea; subst a s2'; clear Ea.
      clear E1 E2 T1 T2 Hp1 Hlen1 p1 s1 s.
      destruct (sr =? 0) eqn:E0; [apply emits_undefined|]. cbv zeta.
      set (n := dst_frames N rate sr).
      apply emits_bind; [apply emits_malloc|]. intros dst s3 E3.
      destruct (malloc_next _ _ _ _ _ E3) as [_ [p3 [Heq Hdst]]].
      injection Heq as <-. clear E3.
      apply emits_bind.
      * destruct (sr =? rate) eqn:Er; simpl negb; cbv iota.
        -- apply emits_memcpy.
        -- unfold src_simple. apply emits_bind.
           ++ apply emits_call. simpl. fold sr rate. repeat split.
              apply Z.eqb_neq. exact Er.
           ++ intros _ s' _. simpl. destruct src, dst; apply emits_ret.
      * intros dst' s4 E4.
        assert (Hw : forall block, 0 < n -> dst' = Some block ->
                  converted src N sr rate
                  = Some (firstn (Z.to_nat n) block)).
        { intros block Hn ->. unfold converted. fold n.
          destruct (Z.leb_spec n 0) as [|_]; [lia|].
          assert (Hroom : forall d,
                     dst = Some d -> d = repeat Undef (Z.to_nat n)).
          { intros d ->. destruct Hdst as [|[_ Hd]]; [discriminate|].
            injection Hd as ->. reflexivity. }
          destruct (sr =? rate) eqn:Er; simpl negb in E4; cbv iota in E4.
          - unfold memcpy in E4.
            destruct (Z.eqb_spec n 0) as [|_]; [lia|].
            destruct dst as [d|], src as [b|]; try discriminate.
            destruct (_ && _) eqn:C in E4; try discriminate.
            injection E4 as E4 _. subst block.
            apply andb_prop in C as [_ C]. rewrite C. f_equal.
            rewrite (Hroom d eq_refl).
            assert (Hb : List.length (firstn (Z.to_nat n) b) = Z.to_nat n).
            { rewrite length_firstn. apply Z.leb_le in C. lia. }
            rewrite overwrite_undef by lia.
            rewrite Hb, Nat.sub_diag. simpl. rewrite app_nil_r.
            symmetry. apply firstn_exact. exact Hb.
          - unfold src_simple, bind, call, ret in E4. simpl in E4.
            destruct src as [b|], dst as [d|]; inversion E4; subst block;
              f_equal; rewrite (Hroom d eq_refl).
            + rewrite repeat_length, Nat.min_id.
              set (g := firstn (Z.to_nat n) _).
              assert (Hg : (List.length g <= Z.to_nat n)%nat)
                by (unfold g; rewrite length_firstn; lia).
              rewrite overwrite_undef by exact Hg.
              symmetry. apply firstn_exact.
              rewrite length_app, repeat_length. lia.
            + simpl. rewrite Nat.sub_0_r. symmetry.
              apply firstn_exact. apply repeat_length. }
        apply emits_bind.
        -- unfold sf_writef_float. destruct (n <=? 0) eqn:En.
           ++ apply emits_call. simpl. fold sr rate N n. repeat split.
              unfold converted. fold n. rewrite En. reflexivity.
           ++ destruct dst' as [block|]; [|apply emits_undefined].
              destruct (n <=? Z.of_nat (List.length block));
                [|apply emits_undefined].
              apply emits_call. simpl. fold sr rate N n. repeat split.
              apply Hw; [apply Z.leb_gt; exact En | reflexivity].
        -- intros _ s5 _.
           repeat (apply emits_bind; [apply emits_call; exact I | intros _ ? _]).
           apply emits_call. exact I.
Qed.

(** *** The whole call *)

Lemma emits_bind_any {A B X : Type} (P : X -> event float -> Prop) (x0 : X)
    (m : exec float A) (k : A -> exec float B) s :
  (forall x, emits (P x) m s) ->
  (forall a s', m s = (Next a, s') -> exists x, emits (P x) (k a) s') ->
  exists x, emits (P x) (bind m k) s.
Proof.
  intros Hm Hk. destruct (m s) as [[a|rc|] s'] eqn:E.
  - destruct (Hk a s' eq_refl) as [x Hx]. exists x.
    apply emits_bind; [apply Hm|]. intros a' s'' E'.
    rewrite E in E'. injection E' as <- <-. exact Hx.
  - exists x0. apply emits_bind; [apply Hm|]. intros a' s'' E'.
    rewrite E in E'. discriminate.
  - exists x0. apply emits_bind; [apply Hm|]. intros a' s'' E'.
    rewrite E in E'. discriminate.
Qed.

Lemma unsupported_false rate :
  unsupported rate = false -> rate = 8000 \/ rate = 16000.
Proof.
  unfold unsupported. intros H.
  destruct (Z.eqb_spec rate 8000); [left; assumption|].
  destruct (Z.eqb_spec rate 16000); [right; assumption|].
  discriminate.
Qed.

Lemma rate_in_effect_supported w :
  rate_in_effect w = 8000 \/ rate_in_effect w = 16000.
Proof.
  unfold rate_in_effect.
  destruct (unsupported (configured_rate w)) eqn:E.
  - left. reflexivity.
  - apply unsupported_false. exact E.
Qed.

Lemma temp_names_in_effect w :
  temp_names (rate_in_effect w) (tmp_file w)
  = (Some (raw_file w), Some (wav_file w)).
Proof.
  unfold temp_names, raw_file, wav_file.
  destruct (rate_in_effect_supported w) as [-> | ->]; reflexivity.
Qed.

(** The side condition of a call that the predicate leaves free. *)
Ltac free := first [exact I | reflexivity].

(** One statement that makes only such calls. *)
Ltac quiet_step :=
  lazymatch goal with
  | |- emits _ (bind _ _) _ => apply emits_bind; [|intros ? ? _]
  | |- emits _ (ret _) _ => apply emits_ret
  | |- emits _ (return_ _) _ => apply emits_return_
  | |- emits _ undefined _ => apply emits_undefined
  | |- emits _ (call _) _ => apply emits_call; free
  | |- emits _ (ast_log _ _ _) _ => apply emits_call; free
  | |- emits _ (ast_debug _ _ _) _ => apply emits_call; free
  | |- emits _ ast_config_destroy _ => apply emits_call; free
  | |- emits _ (answer_unless_up _) _ => apply emits_answer_unless_up; free
  | |- emits _ (ast_streamfile _ _) _ => unfold ast_streamfile
  | |- emits _ (ast_waitstream _ _) _ => unfold ast_waitstream
  | |- emits _ (ast_config_load _ _) _ => unfold ast_config_load
  | |- emits _ (if ?c then _ else _) _ => destruct c
  | |- emits _ (match ?c with _ => _ end) _ => destruct c
  end.

Ltac quiet := repeat quiet_step.

Lemma app_exec_body_emits w data s :
  exists x, emits (expected w (fst x) (snd x)) (app_exec_body w data) s.
Proof.
  unfold app_exec_body.
  destruct (ast_strlen_zero data).
  { exists (None, 0). quiet. }
  apply (emits_bind_any _ (None, 0)); [intros x; quiet|].
  intros cfg s1 E1.
  assert (cfg = w_config w) as ->.
  { unfold ast_config_load, bind, call, ret in E1. simpl in E1.
    injection E1 as <- _. reflexivity. }
  clear E1.
  apply (emits_bind_any _ (None, 0)); [intros x; quiet|].
  intros st s2 E2.
  assert (Hst : target_sample_rate st = configured_rate w).
  { unfold configured_rate, settings_of. destruct (w_config w).
    - injection E2 as <- _. reflexivity.
    - unfold ast_log, bind, call, ret in E2. simpl in E2.
      injection E2 as <- _. reflexivity. }
  clear E2. cbv zeta.
  set (mydata := match data with Some d => d | None => EmptyString end).
  set (args0 := AST_STANDARD_APP_ARGS mydata).
  set (args := match interrupt args0 with Some _ => _ | None => _ end).
  set (voice0 := if negb (ast_strlen_zero (language args)) then _ else _).
  apply (emits_bind_any _ (None, 0)).
  { intros x. unfold supported_rate. quiet. }
  intros rate s3 E3.
  assert (rate = rate_in_effect w) as ->.
  { unfold rate_in_effect. rewrite <- Hst. unfold supported_rate in E3.
    destruct (unsupported (target_sample_rate st)).
    - unfold ast_log, bind, call, ret in E3. simpl in E3.
      injection E3 as <- _. reflexivity.
    - injection E3 as <- _. reflexivity. }
  clear E3.
  apply (emits_bind_any _ (None, 0)); [intros x; quiet|]. intros _ s4 _.
  apply (emits_bind_any _ (None, 0)).
  { intros x. unfold cache_mechanism. quiet. }
  intros cache s5 _.
  fold (tmp_file w). rewrite temp_names_in_effect. simpl fst. simpl snd.
  apply (emits_bind_any _ (None, 0)); [intros x; quiet|]. intros _ s6 _.
  destruct (w_espeak_Initialize w =? -1).
  { exists (None, 0). quiet. }
  do 7 (apply (emits_bind_any _ (None, 0)); [intros x; quiet|]; intros _ ? _).
  unfold initialised at 1.
  apply (emits_bind_any _ (None, 0)); [intros x; quiet|].
  intros raw_name s7 E7. injection E7 as <- _.
  set (stored := w_wave w _ (text args)).
  apply (emits_bind_any _ (None, 0)).
  { intros x. unfold fopen. apply emits_bind; [|intros; apply emits_ret].
    apply emits_call. reflexivity. }
  intros fl s8 _. destruct (negb fl).
  { exists (None, 0). quiet. }
  do 3 (apply (emits_bind_any _ (None, 0)); [intros x; quiet|]; intros _ ? _).
  apply (emits_bind_any _ (None, 0)).
  { intros x. unfold sf_open. apply emits_bind; [|intros; apply emits_ret].
    apply emits_call. simpl. auto. }
  intros src_file s9 E9.
  destruct src_file as [src_info|]; [|exists (None, 0); quiet].
  assert (Hch : channels src_info = 1 /\ 0 <= frames src_info).
  { unfold sf_open, bind, call, ret in E9. simpl in E9.
    destruct (w_sf_open w (raw_file w) SFM_READ); [|discriminate].
    injection E9 as <- _. simpl. split; [reflexivity | lia]. }
  destruct Hch as [Hch Hfr].
  clear E9. unfold initialised at 1.
  apply (emits_bind_any _ (None, 0)); [intros x; quiet|].
  intros wav_name s10 E10. injection E10 as <- _.
  apply (emits_bind_any _ (None, 0)).
  { intros x. unfold sf_open. apply emits_bind; [|intros; apply emits_ret].
    apply emits_call. simpl. auto. }
  intros dst_file s11 _.
  destruct dst_file as [_|]; [|exists (None, 0); quiet].
  destruct (resample_emits w stored src_info s11 Hfr) as [src0 Hsrc0].
  exists (src0, frames src_info). simpl fst. simpl snd.
  apply emits_bind; [exact Hsrc0|]. intros _ s12 _. quiet.
Qed.

Lemma Forall_rev_iff {A : Type} (P : A -> Prop) l :
  Forall P (rev l) <-> Forall P l.
Proof.
  rewrite !Forall_forall. split; intros H x Hx; apply H.
  - apply in_rev in Hx. exact Hx.
  - apply in_rev. exact Hx.
Qed.

(** Every call of a run is as [expected], for one source buffer. *)
Lemma app_exec_expected w data :
  exists src0 N0, Forall (expected w src0 N0) (snd (app_exec w data)).
Proof.
  destruct (app_exec_body_emits w data (initial w)) as [[src0 N0] H].
  exists src0, N0. unfold app_exec.
  unfold emits in H. simpl in H.
  destruct (app_exec_body w data (initial w)) as [r s]. simpl in *.
  apply Forall_rev_iff. apply extends_nil. exact H.
Qed.


Lemma app_exec_in w data :
  exists src0 N0,
    forall e, In e (snd (app_exec w data)) -> expected w src0 N0 e.
Proof.
  destruct (app_exec_expected w data) as [src0 [N0 H]].
  exists src0, N0. apply Forall_forall. exact H.
Qed.

(** *** The frame count *)

Lemma wrap64_small z : - 2 ^ 63 <= z < 2 ^ 63 -> wrap64 z = z.
Proof.
  intros Hz. unfold wrap64, wrap.
  change (2 ^ (64 - 1)) with (2 ^ 63).
  rewrite Z.mod_small; lia.
Qed.

Lemma dst_frames_small N rate sample_rate :
  0 <= N -> 0 <= rate -> 0 < sample_rate -> N * rate < 2 ^ 63 ->
  dst_frames N rate sample_rate = N * rate / sample_rate.
Proof.
  intros HN Hr Hs Hfit. unfold dst_frames.
  assert (H0 : 0 <= N * rate) by lia.
  rewrite (wrap64_small (N * rate)) by lia.
  rewrite Z.quot_div_nonneg by lia.
  apply wrap64_small.
  assert (0 <= N * rate / sample_rate) by (apply Z.div_pos; lia).
  assert (N * rate / sample_rate <= N * rate)
    by (apply Z.div_le_upper_bound; nia).
  lia.
Qed.


Lemma converted_length src N sample_rate rate out :
  0 <= dst_frames N rate sample_rate ->
  converted src N sample_rate rate = Some out ->
  Z.of_nat (List.length out) = dst_frames N rate sample_rate.
Proof.
  unfold converted. set (n := dst_frames N rate sample_rate). intros Hn.
  destruct (Z.leb_spec n 0).
  - intros E. injection E as <-. simpl. lia.
  - destruct (sample_rate =? rate).
    + destruct src as [block|]; [|discriminate].
      destruct (Z.leb_spec n (Z.of_nat (List.length block))); [|discriminate].
      intros E. injection E as <-. rewrite length_firstn. lia.
    + intros E. injection E as <-.
      set (g := match src with Some _ => _ | None => _ end).
      assert (Hg : (List.length g <= Z.to_nat n)%nat).
      { unfold g. destruct src; simpl; [rewrite length_firstn|]; lia. }
      rewrite length_app, repeat_length. lia.
Qed.


(** *** The order of the calls *)

Lemma app_exec_body_empty w data s :
  ast_strlen_zero data = true ->
  app_exec_body w data s =
    (Return (-1),
     {| trace :=
          ev_ast_log LOG_ERROR "eSpeak requires an argument (text)\n" []
          :: trace s;
        chan_up := chan_up s; mallocs := mallocs s |}).
Proof.
  intros H. unfold app_exec_body. rewrite H. reflexivity.
Qed.

Lemma bind_next {A B : Type} (m : exec float A) (k : A -> exec float B) s a s' :
  m s = (Next a, s') -> bind m k s = k a s'.
Proof. unfold bind. intros ->. reflexivity. Qed.

(** One statement of the body, whatever calls it makes. *)
Ltac grows_step :=
  first
    [ quiet_step
    | lazymatch goal with
      | |- emits _ (malloc _ _) _ => apply emits_malloc
      | |- emits _ (memcpy _ _ _) _ => apply emits_memcpy
      | |- emits _ (fopen _ _) _ => unfold fopen
      | |- emits _ (sf_open _ _ _ _ _) _ => unfold sf_open
      | |- emits _ (initialised _) _ => unfold initialised
      | |- emits _ (cache_mechanism _ _ _ _) _ => unfold cache_mechanism
      | |- emits _ (supported_rate _) _ => unfold supported_rate
      | |- emits _ (resample _ _ _ _ _ _ _) _ => unfold resample
      | |- emits _ (sf_readf_float _ _ _ _ _) _ => unfold sf_readf_float
      | |- emits _ (src_simple _) _ => unfold src_simple
      | |- emits _ (sf_writef_float _ _ _) _ => unfold sf_writef_float
      | |- emits _ _ _ => progress cbv zeta
      end ].

Ltac grows := repeat grows_step.

Ltac step := erewrite bind_next by reflexivity; cbv beta.

Lemma app_exec_prelude w data :
  ast_strlen_zero data = false ->
  exists txt intkeys voice R,
    snd (app_exec w data) =
      prelude w ++ debug_parameters txt intkeys voice (rate_in_effect w) :: R /\
    (usecache (settings_of w) = 0 -> exists R', R = ev_espeak_Initialize :: R').
Proof.
  intros Hdata. unfold app_exec, app_exec_body. rewrite Hdata.
  unfold prelude, rate_in_effect, configured_rate, settings_of.
  step.
  destruct (w_config w) as [cfg|]; step;
    unfold supported_rate;
    match goal with
    | |- context [unsupported ?r] => destruct (unsupported r) eqn:Eu
    end; step; try step.
  all: match goal with
       | |- context [cache_mechanism _ ?u ?c ?a] =>
           destruct (Z.eqb_spec u 0) as [E0|E0];
           [ unfold cache_mechanism; rewrite E0; simpl (0 =? 0); cbv iota;
             do 2 step |]
       end.
  all: lazymatch goal with
       | |- context [let (_, _) := ?m ?s in _] =>
           assert (G : emits (fun _ => True) m s) by grows;
           unfold emits in G; destruct (m s) as [r sf]
       end.
  all: simpl in G; apply extends_app in G as [l [G _]]; simpl snd;
    rewrite G, rev_app_distr; simpl rev; simpl app.
  all: do 4 eexists; split;
    [ unfold debug_parameters, unsupported_warning; reflexivity
    | intros H0; first [ eexists; reflexivity | contradiction ] ].
Qed.

Lemma prelude_not_audio w : Forall (fun e => is_audio e = false) (prelude w).
Proof.
  unfold prelude.
  destruct (w_config w), (unsupported (configured_rate w));
    repeat constructor.
Qed.


(** In a list split at [d], what stands before another split point that
    is not in the first part has [d] before it. *)
Lemma split_after {A : Type} (d e : A) l1 l2 pre post :
  l1 ++ d :: l2 = pre ++ e :: post ->
  ~ In e l1 -> e <> d -> In d pre.
Proof.
  revert pre. induction l1 as [|a l1 IH]; intros [|x pre] E Hin Hne;
    simpl in E; injection E as E1 E2.
  - congruence.
  - left. congruence.
  - exfalso. apply Hin. left. congruence.
  - right. apply (IH pre E2); [|exact Hne].
    intros H. apply Hin. right. exact H.
Qed.

(** *** The failure paths *)

Lemma stops_bind {A B : Type} (quiet : event float -> Prop) T
    (m : exec float A) (k : A -> exec float B) s :
  emits quiet m s ->
  (forall a s', m s = (Next a, s') -> stops quiet T (k a) s') ->
  stops quiet T (bind m k) s.
Proof.
  intros Hm Hk. unfold stops, emits, bind in *.
  destruct (m s) as [[a|rc|] s'] eqn:E; simpl in Hm; try (left; exact Hm).
  destruct (Hk a s' eq_refl) as [Hq | [Hr [t [l [Ht [HT Hl]]]]]].
  - left. eapply extends_trans; eassumption.
  - right. split; [exact Hr|]. exists t, l. split; [exact Ht|].
    split; [exact HT|]. eapply extends_trans; eassumption.
Qed.

Lemma stops_quiet {A : Type} (quiet : event float -> Prop) T
    (m : exec float A) s :
  emits quiet m s -> stops quiet T m s.
Proof. intros H. left. exact H. Qed.

(** From a run that [stops], what a call that breaks [quiet] tells. *)
Lemma stops_app_exec (quiet : event float -> Prop) T w data e :
  (forall s, stops quiet T (app_exec_body w data) s) ->
  In e (snd (app_exec w data)) -> ~ quiet e ->
  fst (app_exec w data) = Some (-1) /\
  exists t pre,
    snd (app_exec w data) = pre ++ rev t /\ T t /\ In e (rev t) /\
    Forall quiet pre.
Proof.
  intros H Hin Hne. unfold app_exec in *.
  specialize (H (initial w)). unfold stops, emits in H.
  destruct (app_exec_body w data (initial w)) as [r s]. simpl in *.
  destruct H as [Hq | [-> [t [l [Ht [HT Hl]]]]]].
  - exfalso. apply extends_nil in Hq. rewrite Forall_forall in Hq.
    apply Hne, Hq, in_rev, Hin.
  - split; [reflexivity|]. exists t, (rev l).
    rewrite Ht, rev_app_distr in *. split; [reflexivity|].
    split; [exact HT|].
    apply extends_nil in Hl. split; [|apply Forall_rev_iff; exact Hl].
    apply in_app_or in Hin as [Hin|Hin]; [|exact Hin].
    exfalso. rewrite Forall_forall in Hl.
    apply Hne, Hl, in_rev, Hin.
Qed.

(** One step down the body: a branch, or a statement that is quiet. *)
Ltac descend_step :=
  lazymatch goal with
  | |- stops _ _ (bind _ _) _ =>
      apply stops_bind; [solve [grows] | intros ? ? _]
  | |- stops _ _ (if ?c then _ else _) _ => destruct c
  | |- stops _ _ (match ?c with _ => _ end) _ => destruct c
  | |- stops _ _ _ _ =>
      first [progress cbv zeta | apply stops_quiet; solve [grows]]
  end.

Ltac descend := unfold app_exec_body; repeat descend_step; right.

Ltac stopped t s :=
  split; [reflexivity|]; exists (rev t), (trace s);
  split; [reflexivity|]; split; [|apply extends_refl].

Lemma engine_failure_stops w data s :
  w_espeak_Initialize w = -1 ->
  stops (before 1) (fun t => rev t = engine_failure)
        (app_exec_body w data) s.
Proof.
  intros Hfail. descend. rewrite Hfail.
  match goal with
  | |- context [bind _ _ ?s0] => stopped (@engine_failure float) s0
  end.
  reflexivity.
Qed.

Lemma fopen_failure_stops w data s :
  (forall name, w_fopen w name = false) ->
  stops (before 2) (fun t => exists raw_name, rev t = fopen_failure raw_name)
        (app_exec_body w data) s.
Proof.
  intros Hfail. descend.
  match goal with
  | |- context [bind (fopen _ ?n) _ ?s0] =>
      step; rewrite Hfail; simpl negb; cbv iota;
      stopped (@fopen_failure float n) s0; exists n; reflexivity
  end.
Qed.

Lemma raw_open_failure_stops w data s :
  (forall name, w_sf_open w name SFM_READ = false) ->
  stops (before 4)
        (fun t => exists raw_name info, rev t = raw_open_failure raw_name info)
        (app_exec_body w data) s.
Proof.
  intros Hfail. descend.
  match goal with
  | |- context [bind (sf_open _ ?n SFM_READ ?i _) _ ?s0] =>
      step; rewrite Hfail;
      stopped (@raw_open_failure float n i) s0; exists n, i; reflexivity
  end.
Qed.

Lemma wav_open_failure_stops w data s :
  (forall name, w_sf_open w name SFM_WRITE = false) ->
  stops (before 5)
        (fun t => exists raw_name wav_name info,
                    rev t = wav_open_failure raw_name wav_name info)
        (app_exec_body w data) s.
Proof.
  intros Hfail. descend.
  match goal with
  | |- context [bind (sf_open _ ?n SFM_WRITE ?i _) _ ?s0] =>
      step; rewrite Hfail;
      match goal with
      | |- context [ev_remove ?r] =>
          stopped (@wav_open_failure float r n i) s0; exists r, n, i; reflexivity
      end
  end.
Qed.

(** ** The claims *)


(** C2, amended: the number of frames written is the quotient of
    [N * target_rate] by the engine's sample rate, truncated, where [N] is
    the number of source frames; from 16000 to 8000 it is [N / 2] rounded
    down. *)
Theorem frame_count_truncated w data raw src N wav out n :
  0 < w_espeak_Initialize w ->
  N * rate_in_effect w < 2 ^ 63 ->
  In (ev_sf_readf_float raw src N) (snd (app_exec w data)) ->
  In (ev_sf_writef_float wav out n) (snd (app_exec w data)) ->
  n = N * rate_in_effect w / w_espeak_Initialize w /\
  Z.of_nat (List.length out) = n /\
  (w_espeak_Initialize w = 16000 -> rate_in_effect w = 8000 -> n = N / 2).
Proof.
  intros Hsr Hfit Hr Hw. destruct (app_exec_in w data) as [src0 [N0 H]].
  destruct (H _ Hr) as [_ [<- [<- [HN Hlen]]]].
  destruct (H _ Hw) as [_ [Hn Hout]].
  assert (Hpos : 0 < rate_in_effect w)
    by (destruct (rate_in_effect_supported w); lia).
  assert (Hq : n = N * rate_in_effect w / w_espeak_Initialize w).
  { rewrite Hn. apply dst_frames_small; lia. }
  repeat split.
  - exact Hq.
  - rewrite Hn. apply (converted_length src N _ _ out); [|exact Hout].
    rewrite <- Hn, Hq. apply Z.div_pos; lia.
  - intros E16 E8. rewrite Hq, E16, E8.
    change 16000 with (2 * 8000). apply Z.div_mul_cancel_r; lia.
Qed.





(** C10: the target rate in effect is 8000 or 16000, and it is 8000
    whenever the configured rate is neither.  The temporary files are named
    from it, every wav container is tagged with it and every call of the
    resampler has it as the numerator of the ratio.  Each call that names a
    temporary file, runs the synthesiser or handles audio comes after the
    debug line that prints the rate in effect. *)
Theorem target_rate_supported_throughout w data :
  (rate_in_effect w = 8000 \/ rate_in_effect w = 16000) /\
  (unsupported (configured_rate w) = true -> rate_in_effect w = 8000) /\
  (unsupported (configured_rate w) = false ->
   rate_in_effect w = configured_rate w) /\
  (forall name, In (ev_fopen name) (snd (app_exec w data)) ->
     name = raw_file w) /\
  (forall name info,
     In (ev_sf_open name SFM_WRITE info) (snd (app_exec w data)) ->
     name = wav_file w /\ samplerate info = rate_in_effect w) /\
  (forall d, In (ev_src_simple d) (snd (app_exec w data)) ->
     fst (src_ratio d) = rate_in_effect w) /\
  (forall pre e post,
     snd (app_exec w data) = pre ++ e :: post -> is_audio e = true ->
     exists txt intkeys voice,
       In (debug_parameters txt intkeys voice (rate_in_effect w)) pre).
Proof.
  destruct (app_exec_in w data) as [src0 [N0 H]].
  split; [apply rate_in_effect_supported|].
  split; [intros E; unfold rate_in_effect; rewrite E; reflexivity|].
  split; [intros E; unfold rate_in_effect; rewrite E; reflexivity|].
  split; [intros name Hin; exact (H _ Hin)|].
  split; [intros name info Hin; destruct (H _ Hin) as [? [? _]]; auto|].
  split.
  { intros d Hin. destruct (H _ Hin) as [_ [_ [_ [E _]]]].
    rewrite E. reflexivity. }
  intros pre e post Hsplit Haudio.
  destruct (ast_strlen_zero data) eqn:Hdata.
  - unfold app_exec in Hsplit.
    rewrite (app_exec_body_empty w data _ Hdata) in Hsplit. simpl in Hsplit.
    destruct pre as [|x [|y pre]]; simpl in Hsplit; try discriminate.
    injection Hsplit as <- _. discriminate.
  - destruct (app_exec_prelude w data Hdata) as [txt [intkeys [v [R [E _]]]]].
    exists txt, intkeys, v. rewrite E in Hsplit.
    apply (split_after _ _ _ _ _ _ Hsplit).
    + intros Hin. pose proof (prelude_not_audio w) as Hq.
      rewrite Forall_forall in Hq. rewrite (Hq _ Hin) in Haudio. discriminate.
    + intros ->. discriminate.
Qed.

(** ** Further properties of the call *)

(** X1: when the engine does not initialise, the call returns -1: after
    [espeak_Initialize] it only logs the error and destroys the
    configuration, and no call of the audio pipeline comes before. *)
Theorem engine_failure_returns w data :
  w_espeak_Initialize w = -1 ->
  In ev_espeak_Initialize (snd (app_exec w data)) ->
  fst (app_exec w data) = Some (-1) /\
  exists pre,
    snd (app_exec w data) = pre ++ engine_failure /\ Forall (before 1) pre.
Proof.
  intros Hfail Hin.
  destruct (stops_app_exec (before 1) _ w data _
              (fun s => engine_failure_stops w data s Hfail) Hin)
    as [Hr [t [pre [E [HT [_ Hpre]]]]]]; [discriminate|].
  split; [exact Hr|]. exists pre. rewrite <- HT. auto.
Qed.

(** X2: when the raw file cannot be created, the call returns -1: after
    [fopen] it only logs the error and destroys the configuration; nothing
    is synthesised. *)
Theorem fopen_failure_returns w data name :
  (forall n, w_fopen w n = false) ->
  In (ev_fopen name) (snd (app_exec w data)) ->
  fst (app_exec w data) = Some (-1) /\
  exists pre,
    snd (app_exec w data) = pre ++ fopen_failure name /\ Forall (before 2) pre.
Proof.
  intros Hfail Hin.
  destruct (stops_app_exec (before 2) _ w data _
              (fun s => fopen_failure_stops w data s Hfail) Hin)
    as [Hr [t [pre [E [[raw HT] [Ht Hpre]]]]]]; [discriminate|].
  rewrite HT in E, Ht.
  assert (raw = name) as ->.
  { destruct Ht as [Ht|[Ht|[Ht|[]]]]; try discriminate.
    injection Ht as ->. reflexivity. }
  split; [exact Hr|]. exists pre. auto.
Qed.

(** X3: when the raw file cannot be opened for reading, the call returns -1:
    after [sf_open] it only logs the error, destroys the configuration and
    removes the raw file; no wav file is opened and no frame is read,
    converted or written. *)
Theorem raw_open_failure_returns w data name info :
  (forall n, w_sf_open w n SFM_READ = false) ->
  In (ev_sf_open name SFM_READ info) (snd (app_exec w data)) ->
  fst (app_exec w data) = Some (-1) /\
  exists pre,
    snd (app_exec w data) = pre ++ raw_open_failure name info /\
    Forall (before 4) pre.
Proof.
  intros Hfail Hin.
  destruct (stops_app_exec (before 4) _ w data _
              (fun s => raw_open_failure_stops w data s Hfail) Hin)
    as [Hr [t [pre [E [[raw [i HT]] [Ht Hpre]]]]]]; [discriminate|].
  rewrite HT in E, Ht.
  assert (raw = name /\ i = info) as [-> ->].
  { destruct Ht as [Ht|[Ht|[Ht|[Ht|[]]]]]; try discriminate.
    injection Ht as -> ->. split; reflexivity. }
  split; [exact Hr|]. exists pre. auto.
Qed.

(** X4: when the wav file cannot be opened for writing, the call returns -1:
    after [sf_open] it only logs the error, destroys the configuration,
    closes and removes the raw file; no frame is read, converted or
    written. *)
Theorem wav_open_failure_returns w data name info :
  (forall n, w_sf_open w n SFM_WRITE = false) ->
  In (ev_sf_open name SFM_WRITE info) (snd (app_exec w data)) ->
  fst (app_exec w data) = Some (-1) /\
  exists pre raw_name,
    snd (app_exec w data) = pre ++ wav_open_failure raw_name name info /\
    Forall (before 5) pre.
Proof.
  intros Hfail Hin.
  destruct (stops_app_exec (before 5) _ w data _
              (fun s => wav_open_failure_stops w data s Hfail) Hin)
    as [Hr [t [pre [E [[raw [wav [i HT]]] [Ht Hpre]]]]]]; [discriminate|].
  rewrite HT in E, Ht.
  assert (wav = name /\ i = info) as [-> ->].
  { destruct Ht as [Ht|[Ht|[Ht|[Ht|[Ht|[]]]]]]; try discriminate.
    injection Ht as -> ->. split; reflexivity. }
  split; [exact Hr|]. exists pre, raw. auto.
Qed.

(** X5: the resampler is called only when the engine's rate differs from the
    target rate in effect, on the whole source buffer, with room for the
    truncated quotient of frames and with the ratio of the two rates. *)
Theorem resampler_arguments w data raw src N d :
  In (ev_sf_readf_float raw src N) (snd (app_exec w data)) ->
  In (ev_src_simple d) (snd (app_exec w data)) ->
  w_espeak_Initialize w <> rate_in_effect w /\
  data_in d = src /\ input_frames d = N /\
  output_frames d = dst_frames N (rate_in_effect w) (w_espeak_Initialize w) /\
  src_ratio d = (rate_in_effect w, w_espeak_Initialize w).
Proof.
  intros Hr Hd. destruct (app_exec_in w data) as [src0 [N0 H]].
  destruct (H _ Hr) as [_ [<- [<- _]]].
  destruct (H _ Hd) as [Hin [HN [Hout [Hratio Hne]]]].
  auto.
Qed.

(** X6: after resampling, the frames handed to [sf_writef_float] are the
    frames that [src_simple] generated, followed by cells of the output
    block that were never written, up to the frame count of line 256: the
    count that the resampler reports is not read. *)
Theorem written_after_resampling w data raw block N wav out n :
  w_espeak_Initialize w <> rate_in_effect w ->
  In (ev_sf_readf_float raw (Some block) N) (snd (app_exec w data)) ->
  In (ev_sf_writef_float wav out n) (snd (app_exec w data)) ->
  exists generated,
    generated =
      firstn (Z.to_nat n)
             (sinc_fastest (firstn (Z.to_nat N) block) n
                           (rate_in_effect w, w_espeak_Initialize w)) /\
    out = generated ++ repeat Undef (Z.to_nat n - List.length generated).
Proof.
  intros Hne Hr Hw. destruct (app_exec_in w data) as [src0 [N0 H]].
  destruct (H _ Hr) as [_ [<- [<- _]]].
  destruct (H _ Hw) as [_ [Hn Hout]].
  eexists. split; [reflexivity|].
  unfold converted in Hout. rewrite <- Hn in Hout.
  destruct (Z.leb_spec n 0).
  - injection Hout as <-. replace (Z.to_nat n) with 0%nat by lia. reflexivity.
  - destruct (Z.eqb_spec (w_espeak_Initialize w) (rate_in_effect w));
      [contradiction|].
    injection Hout as <-. reflexivity.
Qed.

(** X7: the test of line 103 is on the argument string as a whole.  A
    call with a non-empty argument string is not rejected, whatever its
    text field holds: it loads the configuration first and, with the cache
    off, goes on to initialise the engine. *)
Theorem nonempty_argument_proceeds w data :
  ast_strlen_zero data = false ->
  exists R,
    snd (app_exec w data) = ev_ast_config_load ESPEAK_CONFIG :: R /\
    (usecache (settings_of w) = 0 -> In ev_espeak_Initialize R).
Proof.
  intros Hdata.
  destruct (app_exec_prelude w data Hdata) as [txt [intkeys [v [R [E Hinit]]]]].
  rewrite E. unfold prelude. rewrite <- app_comm_cons.
  eexists. split; [reflexivity|].
  intros Hc. destruct (Hinit Hc) as [R' ->].
  apply in_or_app. right. right. left. reflexivity.
Qed.

(** ** More properties of the call *)

(** *** The values of the locals *)

Lemma ast_config_load_next w file s cfg s' :
  ast_config_load w file s = (Next cfg, s') -> cfg = w_config w.
Proof.
  unfold ast_config_load, bind, call, ret. simpl.
  intros E. injection E as <- _. reflexivity.
Qed.

Lemma settings_next w s st s' :
  match w_config w with
  | Some cfg => ret (read_config cfg)
  | None =>
      bind (ast_log LOG_WARNING
              "eSpeak: No such configuration file %s using default settings\n"
              [arg_s (Some ESPEAK_CONFIG)])
           (fun _ => ret defaults)
  end s = (Next st, s') ->
  st = settings_of w.
Proof.
  unfold settings_of. destruct (w_config w).
  - intros E. injection E as <- _. reflexivity.
  - unfold ast_log, bind, call, ret. simpl.
    intros E. injection E as <- _. reflexivity.
Qed.

Lemma supported_rate_next w s rate s' :
  supported_rate (target_sample_rate (settings_of w)) s = (Next rate, s') ->
  rate = rate_in_effect w.
Proof.
  unfold rate_in_effect, configured_rate, supported_rate.
  destruct (unsupported (target_sample_rate (settings_of w))).
  - unfold ast_log, bind, call, ret. simpl.
    intros E. injection E as <- _. reflexivity.
  - intros E. injection E as <- _. reflexivity.
Qed.

Lemma bind_assoc {A B C : Type} (m : exec float A) (f : A -> exec float B)
    (g : B -> exec float C) s :
  bind (bind m f) g s = bind m (fun a => bind (f a) g) s.
Proof.
  unfold bind. destruct (m s) as [[a|rc|] s']; reflexivity.
Qed.

Lemma ast_streamfile_next w file s res s' :
  ast_streamfile w file s = (Next res, s') -> res = w_streamfile w file.
Proof.
  unfold ast_streamfile, bind, call, ret. simpl.
  intros E. injection E as <- _. reflexivity.
Qed.

Lemma ast_waitstream_next w keys s res s' :
  ast_waitstream w keys s = (Next res, s') -> res = w_waitstream w.
Proof.
  unfold ast_waitstream, bind, call, ret. simpl.
  intros E. injection E as <- _. reflexivity.
Qed.

Lemma sf_open_read_next w name info stored s src_info s' :
  sf_open w name SFM_READ info stored s = (Next (Some src_info), s') ->
  frames src_info = Z.of_nat (List.length stored).
Proof.
  unfold sf_open, bind, call, ret. simpl.
  destruct (w_sf_open w name SFM_READ); [|discriminate].
  intros E. injection E as <- _. reflexivity.
Qed.

(** *** Strings that fit their buffer *)

Lemma substring_all (s : string) n :
  (String.length s <= n)%nat -> String.substring 0 n s = s.
Proof.
  revert n. induction s as [|c s IH]; intros [|n] H; simpl in *;
    try reflexivity; try lia.
  rewrite IH by lia. reflexivity.
Qed.

Lemma snprintf_fits size (s : string) :
  (String.length s < size)%nat -> snprintf size s = s.
Proof. intros H. apply substring_all. lia. Qed.

Lemma append_length (a b : string) :
  String.length (a ++ b) = (String.length a + String.length b)%nat.
Proof.
  induction a as [|c a IH]; simpl; [reflexivity | rewrite IH; reflexivity].
Qed.

Lemma append_inv_head (a b c : string) : (a ++ b = a ++ c)%string -> b = c.
Proof.
  induction a as [|x a IH]; simpl; intros H; [exact H|].
  injection H as H. apply IH. exact H.
Qed.

(** *** What the calls carry *)

Lemma cache_mechanism_conduct w data s :
  emits (conduct w data)
        (cache_mechanism w (usecache (settings_of w)) (cachedir (settings_of w))
                         (arguments_of data)) s.
Proof.
  unfold cache_mechanism.
  destruct (Z.eqb_spec (usecache (settings_of w)) 0) as [|Hc];
    [apply emits_ret|].
  destruct (Z.leb_spec
              (strlen (cachedir (settings_of w))
               + strlen (ast_md5_hash (text (arguments_of data))) + 5) MAXLEN)
    as [Hfit|]; [|apply emits_ret].
  cbv zeta. fold (cache_file w data).
  apply emits_bind; [quiet|]. intros _ s1 _.
  destruct (Z.leb_spec (w_fileexists w (cache_file w data)) 0) as [|Hex];
    [quiet|].
  apply emits_bind; [quiet|]. intros _ s2 _.
  apply emits_bind; [quiet|]. intros _ s3 _.
  apply emits_bind.
  { unfold ast_streamfile. apply emits_bind; [|intros; apply emits_ret].
    apply emits_call. right. repeat split; assumption. }
  intros res s4 _. quiet.
Qed.

Lemma cache_mechanism_next w data s cache s' :
  cache_mechanism w (usecache (settings_of w)) (cachedir (settings_of w))
                  (arguments_of data) s = (Next cache, s') ->
  (fst cache = true -> snd cache = cache_file w data) /\
  (fst cache = true <->
   cache_in_use w data /\ w_fileexists w (cache_file w data) <= 0).
Proof.
  unfold cache_mechanism, cache_in_use.
  destruct (Z.eqb_spec (usecache (settings_of w)) 0) as [Hc|Hc].
  { intros E. injection E as <- _. simpl.
    split; [discriminate|]. split; [discriminate|]. intros [[H _] _].
    contradiction. }
  destruct (Z.leb_spec
              (strlen (cachedir (settings_of w))
               + strlen (ast_md5_hash (text (arguments_of data))) + 5) MAXLEN)
    as [Hfit|Hfit].
  2: { intros E. injection E as <- _. simpl.
       split; [discriminate|]. split; [discriminate|]. intros [[_ H] _].
       lia. }
  cbv zeta. fold (cache_file w data).
  destruct (Z.leb_spec (w_fileexists w (cache_file w data)) 0) as [Hex|Hex].
  - intros E. unfold bind, ast_debug, call, ret in E. simpl in E.
    injection E as <- _. simpl. split; [reflexivity|]. split; auto.
  - unfold bind, ast_debug, call, ret, answer_unless_up, ast_streamfile,
      ast_waitstream, ast_log, ast_config_destroy, return_.
    destruct (chan_up _); simpl;
      destruct (negb (w_streamfile w (cache_file w data) =? 0)); simpl;
      intros E; try discriminate; injection E as <- _; simpl;
      (split; [discriminate|]); (split; [discriminate|]); intros [_ H]; lia.
Qed.

Lemma resample_conduct w data stored src_info s :
  emits (conduct w data)
        (resample w (raw_file w) (wav_file w) stored src_info
                  (w_espeak_Initialize w) (rate_in_effect w)) s.
Proof.
  unfold resample.
  apply emits_bind; [apply emits_malloc|]. intros src s1 _.
  apply emits_bind; [grows|]. intros src' s2 _.
  destruct (_ =? 0); [apply emits_undefined|]. cbv zeta.
  apply emits_bind; [apply emits_malloc|]. intros dst s3 _.
  apply emits_bind; [grows|]. intros dst' s4 _.
  apply emits_bind; [grows|]. intros _ s5 _.
  apply emits_bind; [apply emits_call; reflexivity|]. intros _ s6 _.
  apply emits_bind; [apply emits_call; left; reflexivity|]. intros _ s7 _.
  apply emits_bind; [apply emits_call; right; reflexivity|]. intros _ s8 _.
  apply emits_call. reflexivity.
Qed.

Lemma app_exec_body_conduct w data s :
  emits (conduct w data) (app_exec_body w data) s.
Proof.
  unfold app_exec_body.
  destruct (ast_strlen_zero data); [quiet|].
  apply emits_bind; [quiet|]. intros cfg s1 E1.
  apply ast_config_load_next in E1 as ->.
  apply emits_bind; [quiet|]. intros st s2 E2.
  apply settings_next in E2 as ->. cbv zeta.
  change (match
             interrupt
               (AST_STANDARD_APP_ARGS
                  match data with Some d => d | None => EmptyString end)
           with
           | Some keys => _
           | None => _
           end) with (arguments_of data).
  fold (voice_in_effect w data).
  apply emits_bind; [unfold supported_rate; quiet|]. intros rate s3 E3.
  apply supported_rate_next in E3 as ->.
  apply emits_bind; [quiet|]. intros _ s4 _.
  apply emits_bind; [apply cache_mechanism_conduct|]. intros cache s5 E5.
  destruct (cache_mechanism_next _ _ _ _ _ E5) as [Hfile Hcache]. clear E5.
  fold (tmp_file w). rewrite temp_names_in_effect. simpl fst. simpl snd.
  apply emits_bind; [quiet|]. intros _ s6 _.
  destruct (w_espeak_Initialize w =? -1); [quiet|].
  do 7 (apply emits_bind; [quiet|]; intros _ ? _).
  unfold initialised at 1.
  apply emits_bind; [quiet|]. intros raw_name s7 E7. injection E7 as <- _.
  apply emits_bind; [grows|]. intros fl s8 _.
  destruct (negb fl); [quiet|].
  apply emits_bind; [apply emits_call; split; reflexivity|]. intros _ ? _.
  do 2 (apply emits_bind; [quiet|]; intros _ ? _).
  apply emits_bind; [grows|]. intros src_file s9 _.
  destruct src_file as [src_info|]; [|quiet].
  unfold initialised at 1.
  apply emits_bind; [quiet|]. intros wav_name s10 E10. injection E10 as <- _.
  apply emits_bind; [grows|]. intros dst_file s11 _.
  destruct dst_file as [_|].
  2: { apply emits_bind; [quiet|]. intros _ ? _.
       apply emits_bind; [quiet|]. intros _ ? _.
       apply emits_bind; [apply emits_call; left; reflexivity|]. intros _ ? _.
       quiet. }
  apply emits_bind; [apply resample_conduct|]. intros _ s12 _.
  apply emits_bind.
  { destruct (fst cache) eqn:Ec; [|apply emits_ret].
    rewrite (Hfile eq_refl). destruct Hcache as [[Huse Hex] _]; [reflexivity|].
    apply emits_bind; [quiet|]. intros _ ? _.
    apply emits_call. split; [reflexivity|]. split; [reflexivity|].
    split; assumption. }
  intros _ s13 _.
  apply emits_bind; [quiet|]. intros _ s14 _.
  apply emits_bind.
  { unfold ast_streamfile. apply emits_bind; [|intros; apply emits_ret].
    apply emits_call. left. reflexivity. }
  intros res s15 _. quiet.
Qed.

(** Every call of a run is as [conduct] says. *)
Lemma app_exec_conduct w data e :
  In e (snd (app_exec w data)) -> conduct w data e.
Proof.
  intros Hin. pose proof (app_exec_body_conduct w data (initial w)) as H.
  unfold app_exec in Hin. unfold emits in H. simpl in H.
  destruct (app_exec_body w data (initial w)) as [r s]. simpl in *.
  apply extends_nil in H. rewrite Forall_forall in H.
  apply H, in_rev, Hin.
Qed.

Lemma cache_file_fits w data :
  cache_in_use w data ->
  cache_file w data =
    (cachedir (settings_of w) ++ "/"
     ++ ast_md5_hash (text (arguments_of data)))%string.
Proof.
  intros [_ Hfit]. unfold cache_file. apply snprintf_fits.
  unfold strlen, MAXLEN in Hfit. rewrite !append_length. simpl String.length.
  lia.
Qed.

Lemma arguments_of_text d :
  text (arguments_of (Some d)) = text (AST_STANDARD_APP_ARGS d).
Proof.
  unfold arguments_of. cbv zeta.
  destruct (interrupt (AST_STANDARD_APP_ARGS d)); [|reflexivity].
  destruct (strcasecmp_eq _ _); reflexivity.
Qed.

Lemma arguments_of_language d :
  language (arguments_of (Some d)) = language (AST_STANDARD_APP_ARGS d).
Proof.
  unfold arguments_of. cbv zeta.
  destruct (interrupt (AST_STANDARD_APP_ARGS d)); [|reflexivity].
  destruct (strcasecmp_eq _ _); reflexivity.
Qed.


(** X9: the engine speaks the first argument, in its whole length, with
    the voice of the third argument when that is given and not empty, and
    with the configured voice otherwise. *)
Theorem voice_and_text_of_arguments w d :
  (forall name,
     In (ev_espeak_SetVoiceByName name) (snd (app_exec w (Some d))) ->
     name = match language (AST_STANDARD_APP_ARGS d) with
            | Some (String c l) => String c l
            | _ => voice (settings_of w)
            end) /\
  (forall txt size,
     In (ev_espeak_Synth txt size) (snd (app_exec w (Some d))) ->
     txt = text (AST_STANDARD_APP_ARGS d) /\ size = strlen txt).
Proof.
  split.
  - intros name Hin. rewrite (app_exec_conduct w _ _ Hin).
    unfold voice_in_effect. rewrite arguments_of_language.
    destruct (language (AST_STANDARD_APP_ARGS d)) as [[|c l]|]; reflexivity.
  - intros txt size Hin. destruct (app_exec_conduct w _ _ Hin) as [-> ->].
    rewrite arguments_of_text. split; reflexivity.
Qed.

(** X10: the keys that interrupt the playback are those of the second
    argument; when that is the word any, in whatever letter case, they are
    all the digits of [AST_DIGIT_ANY]. *)
Theorem interrupt_keys w d intkeys :
  In (ev_ast_waitstream intkeys) (snd (app_exec w (Some d))) ->
  match interrupt (AST_STANDARD_APP_ARGS d) with
  | Some keys =>
      (lowercase keys = "any" -> intkeys = Some "0123456789#*ABCD") /\
      (lowercase keys <> "any" -> intkeys = Some keys)
  | None => intkeys = None
  end.
Proof.
  intros Hin. rewrite (app_exec_conduct w _ _ Hin).
  unfold arguments_of. cbv zeta.
  destruct (interrupt (AST_STANDARD_APP_ARGS d)) as [keys|] eqn:Ek;
    [|exact Ek].
  unfold strcasecmp_eq. change (lowercase "any") with "any".
  destruct (String.eqb_spec (lowercase keys) "any") as [E|E]; split;
    intros H; try contradiction; first [reflexivity | exact Ek].
Qed.

(** X11: the wav file is copied into the cache only when the cache is
    switched on and the cache holds no file for the text; the copy goes from
    the temporary name to the MD5 digest of the text in the cache directory,
    a path that fits [cachefile] untruncated. *)
Theorem cache_filled_when_missing w d from to :
  In (ev_ast_filecopy from to) (snd (app_exec w (Some d))) ->
  from = tmp_file w /\
  to = (cachedir (settings_of w) ++ "/"
        ++ ast_md5_hash (text (AST_STANDARD_APP_ARGS d)))%string /\
  usecache (settings_of w) <> 0 /\
  w_fileexists w to <= 0.
Proof.
  intros Hin. destruct (app_exec_conduct w _ _ Hin) as [-> [-> [Huse Hex]]].
  rewrite <- arguments_of_text, <- (cache_file_fits w (Some d) Huse).
  destruct Huse as [Hc _]. auto.
Qed.

(** X12: a file that the call plays is the wav file under its temporary
    name, or the file that the cache holds for the text. *)
Theorem played_file w d file :
  In (ev_ast_streamfile file) (snd (app_exec w (Some d))) ->
  file = tmp_file w \/
  (file = (cachedir (settings_of w) ++ "/"
           ++ ast_md5_hash (text (AST_STANDARD_APP_ARGS d)))%string /\
   usecache (settings_of w) <> 0 /\ 0 < w_fileexists w file).
Proof.
  intros Hin. destruct (app_exec_conduct w _ _ Hin) as [->|[-> [Huse Hex]]];
    [left; reflexivity | right].
  rewrite <- arguments_of_text, <- (cache_file_fits w (Some d) Huse).
  destruct Huse as [Hc _]. auto.
Qed.

(** X13: the files that the call closes, removes or deletes are its own
    temporary files: the raw file is the only one removed, and the host is
    asked to delete the temporary name only, never a file of the cache. *)
Theorem only_temporary_files_removed w data name :
  (In (ev_fclose name) (snd (app_exec w data)) -> name = raw_file w) /\
  (In (ev_remove name) (snd (app_exec w data)) -> name = raw_file w) /\
  (In (ev_sf_close name) (snd (app_exec w data)) ->
   name = raw_file w \/ name = wav_file w) /\
  (In (ev_ast_filedelete name) (snd (app_exec w data)) -> name = tmp_file w).
Proof.
  repeat split; intros Hin; exact (app_exec_conduct w data _ Hin).
Qed.

(** X14: when the cache is switched on and holds a file for the text that
    the host can play, the call answers the channel if needed, plays that
    file and returns what [ast_waitstream] returns: the engine is not
    started, no temporary file is created and nothing is converted. *)
Theorem cached_file_played w d :
  ast_strlen_zero (Some d) = false ->
  cache_in_use w (Some d) ->
  0 < w_fileexists w (cache_file w (Some d)) ->
  w_streamfile w (cache_file w (Some d)) = 0 ->
  app_exec w (Some d) =
    (Some (w_waitstream w),
     prelude w ++
     [debug_parameters (Some (text (arguments_of (Some d))))
                       (interrupt (arguments_of (Some d)))
                       (Some (voice_in_effect w (Some d))) (rate_in_effect w);
      ev_ast_debug 1 "eSpeak: Activating cache mechanism...\n" [];
      ev_ast_debug 1 "eSpeak: Cache file exists.\n" []] ++
     (if w_chan_up w then [] else [ev_ast_answer]) ++
     [ev_ast_streamfile (cache_file w (Some d));
      ev_ast_waitstream (interrupt (arguments_of (Some d)));
      ev_ast_stopstream; ev_ast_config_destroy]).
Proof.
  intros Hdata [Hc Hfit] Hex Hplay.
  unfold app_exec, app_exec_body, initial. rewrite Hdata.
  unfold prelude, voice_in_effect, rate_in_effect, configured_rate.
  unfold cache_file in *. unfold settings_of in *.
  step.
  destruct (w_config w) as [cfg|]; [|contradiction Hc; reflexivity].
  apply Z.eqb_neq in Hc. apply Z.leb_le in Hfit. apply Z.leb_gt in Hex.
  step. unfold supported_rate.
  destruct (unsupported (target_sample_rate (read_config cfg))); step;
    try step.
  all: cbv zeta;
    change (match interrupt (AST_STANDARD_APP_ARGS d) with
            | Some keys => _
            | None => _
            end) with (arguments_of (Some d));
    unfold cache_mechanism; rewrite Hc, Hfit; cbv zeta; rewrite Hex;
    destruct (w_chan_up w);
    unfold ast_streamfile, ast_waitstream; rewrite Hplay;
    reflexivity.
Qed.

(** *** The end of a completed call *)

Lemma ends_bind {A B : Type} (quiet : event float -> Prop) T
    (m : exec float A) (k : A -> exec float B) s :
  emits quiet m s ->
  (forall a s', m s = (Next a, s') -> ends quiet T (k a) s') ->
  ends quiet T (bind m k) s.
Proof.
  intros Hm Hk. unfold ends, emits, bind in *.
  destruct (m s) as [[a|rc|] s'] eqn:E; simpl in Hm; try (left; exact Hm).
  destruct (Hk a s' eq_refl) as [Hq | [rc [t [l [Hr [Ht [HT Hl]]]]]]].
  - left. eapply extends_trans; eassumption.
  - right. exists rc, t, l. split; [exact Hr|]. split; [exact Ht|].
    split; [exact HT|]. eapply extends_trans; eassumption.
Qed.

Lemma ends_quiet {A : Type} (quiet : event float -> Prop) T
    (m : exec float A) s :
  emits quiet m s -> ends quiet T m s.
Proof. intros H. left. exact H. Qed.

Lemma ends_assoc {A B C : Type} (quiet : event float -> Prop) T
    (m : exec float A) (f : A -> exec float B) (g : B -> exec float C) s :
  ends quiet T (bind m (fun a => bind (f a) g)) s ->
  ends quiet T (bind (bind m f) g) s.
Proof. unfold ends, emits. rewrite bind_assoc. intros H. exact H. Qed.

(** From a run that [ends], what a call that breaks [quiet] tells. *)
Lemma ends_app_exec (quiet : event float -> Prop) T w data e :
  ends quiet T (app_exec_body w data) (initial w) ->
  In e (snd (app_exec w data)) -> ~ quiet e ->
  exists rc t pre,
    fst (app_exec w data) = Some rc /\
    snd (app_exec w data) = pre ++ rev t /\ T rc t /\ Forall quiet pre.
Proof.
  intros H Hin Hne. unfold app_exec in *. unfold ends, emits in H.
  destruct (app_exec_body w data (initial w)) as [r s]. simpl in *.
  destruct H as [Hq | [rc [t [l [-> [Ht [HT Hl]]]]]]].
  - exfalso. apply extends_nil in Hq. rewrite Forall_forall in Hq.
    apply Hne, Hq, in_rev, Hin.
  - exists rc, t, (rev l). split; [reflexivity|].
    rewrite Ht, rev_app_distr. split; [reflexivity|].
    split; [exact HT|]. apply Forall_rev_iff. apply extends_nil. exact Hl.
Qed.

Lemma app_exec_body_ends w data s :
  ends unfinished
       (fun rc t =>
          rc = playback_result w /\
          exists copy answer,
            rev t = playback w data copy answer /\
            (copy = true <->
             cache_in_use w data /\ w_fileexists w (cache_file w data) <= 0))
       (app_exec_body w data) s.
Proof.
  unfold app_exec_body.
  destruct (ast_strlen_zero data); [apply ends_quiet; quiet|].
  apply ends_bind; [quiet|]. intros cfg s1 E1.
  apply ast_config_load_next in E1 as ->.
  apply ends_bind; [quiet|]. intros st s2 E2.
  apply settings_next in E2 as ->. cbv zeta.
  change (match
             interrupt
               (AST_STANDARD_APP_ARGS
                  match data with Some d => d | None => EmptyString end)
           with
           | Some keys => _
           | None => _
           end) with (arguments_of data).
  fold (voice_in_effect w data).
  apply ends_bind; [grows|]. intros rate s3 E3.
  apply supported_rate_next in E3 as ->.
  apply ends_bind; [quiet|]. intros _ s4 _.
  apply ends_bind; [grows|]. intros cache s5 E5.
  destruct (cache_mechanism_next _ _ _ _ _ E5) as [Hfile Hcache]. clear E5.
  fold (tmp_file w). rewrite temp_names_in_effect. simpl fst. simpl snd.
  apply ends_bind; [quiet|]. intros _ s6 _.
  destruct (w_espeak_Initialize w =? -1); [apply ends_quiet; quiet|].
  do 7 (apply ends_bind; [quiet|]; intros _ ? _).
  unfold initialised at 1.
  apply ends_bind; [quiet|]. intros raw_name s7 E7. injection E7 as <- _.
  apply ends_bind; [grows|]. intros fl s8 _.
  destruct (negb fl); [apply ends_quiet; quiet|].
  do 3 (apply ends_bind; [quiet|]; intros _ ? _).
  apply ends_bind; [grows|]. intros src_file s9 _.
  destruct src_file as [src_info|]; [|apply ends_quiet; quiet].
  unfold initialised at 1.
  apply ends_bind; [quiet|]. intros wav_name s10 E10. injection E10 as <- _.
  apply ends_bind; [grows|]. intros dst_file s11 _.
  destruct dst_file as [_|]; [|apply ends_quiet; quiet].
  unfold resample.
  apply ends_assoc, ends_bind; [grows|]. intros src s12 _.
  apply ends_assoc, ends_bind; [grows|]. intros src' s13 _.
  destruct (w_espeak_Initialize w =? 0); [apply ends_quiet; grows|].
  cbv zeta.
  apply ends_assoc, ends_bind; [grows|]. intros dst s14 _.
  apply ends_assoc, ends_bind; [grows|]. intros dst' s15 _.
  apply ends_assoc, ends_bind; [grows|]. intros _ s16 _.
  right. exists (playback_result w).
  unfold playback_result.
  destruct s16 as [tr up n].
  destruct (fst cache) eqn:Ec; [rewrite (Hfile eq_refl)|];
    destruct up; unfold ast_streamfile, ast_waitstream;
    destruct (w_streamfile w (tmp_file w) =? 0) eqn:Eplay;
    repeat (first [ step; cbn [trace chan_up mallocs]
                  | rewrite Eplay; simpl negb; cbv iota ]).
  all: match goal with
       | |- context [ev_ast_answer :: ev_ast_filecopy _ _ :: _] =>
           exists (rev (playback w data true true)), tr
       | |- context [ev_ast_filecopy _ _ :: _] =>
           exists (rev (playback w data true false)), tr
       | |- context [ev_ast_answer :: _] =>
           exists (rev (playback w data false true)), tr
       | _ => exists (rev (playback w data false false)), tr
       end.
  all: split; [reflexivity|];
    split; [unfold playback; rewrite Eplay; reflexivity|];
    split; [|apply extends_refl]; split; [reflexivity|].
  all: rewrite rev_involutive; do 2 eexists; split; [reflexivity|];
    exact Hcache.
Qed.

(** X15: once the wav file is complete, the call closes both sound files,
    removes the raw file, stores the wav file in the cache exactly when the
    cache is in use and holds no file for the text, plays the wav file,
    deletes it and destroys the configuration; it returns what
    [ast_streamfile] returns when that is not zero and what [ast_waitstream]
    returns otherwise. *)
Theorem completed_conversion_is_played w data name :
  In (ev_sf_write_sync name) (snd (app_exec w data)) ->
  fst (app_exec w data) = Some (playback_result w) /\
  exists pre copy answer,
    snd (app_exec w data) = pre ++ playback w data copy answer /\
    Forall unfinished pre /\
    (copy = true <->
     cache_in_use w data /\ w_fileexists w (cache_file w data) <= 0).
Proof.
  intros Hin.
  destruct (ends_app_exec _ _ w data _
              (app_exec_body_ends w data (initial w)) Hin)
    as [rc [t [pre [Hr [E [[-> [copy [answer [Ht Hcopy]]]] Hpre]]]]]].
  { intros H. exact H. }
  split; [exact Hr|]. exists pre, copy, answer. rewrite E, Ht. auto.
Qed.

(** *** Calls that come in pairs *)

Section Monitor.

Variable delta : Z -> event float -> Z.
Variable acc : Z -> bool.

Lemma obeys_ret {A : Type} q (a : A) s : obeys delta acc q (ret a) q s.
Proof. intros H. exact H. Qed.

Lemma obeys_call q q' e s :
  delta q e = q' -> obeys delta acc q (call e) q' s.
Proof. intros Hd H. simpl. rewrite H. exact Hd. Qed.

Lemma obeys_return_ {A : Type} q q' rc s :
  acc q = true -> obeys delta acc q (return_ rc : exec float A) q' s.
Proof. intros Ha H. simpl. rewrite H. exact Ha. Qed.

Lemma obeys_undefined {A : Type} q q' s :
  obeys delta acc q (undefined : exec float A) q' s.
Proof. intros _. exact I. Qed.

Lemma obeys_malloc w n q s : obeys delta acc q (malloc w n) q s.
Proof. intros H. exact H. Qed.

Lemma obeys_answer_unless_up w q s :
  delta q ev_ast_answer = q -> obeys delta acc q (answer_unless_up w) q s.
Proof.
  intros Hd H. unfold answer_unless_up. destruct (chan_up s); simpl.
  - exact H.
  - rewrite H. exact Hd.
Qed.

Lemma obeys_bind {A B : Type} (m : exec float A) (k : A -> exec float B)
    q q1 q2 s :
  obeys delta acc q m q1 s ->
  (forall a s', m s = (Next a, s') -> obeys delta acc q1 (k a) q2 s') ->
  obeys delta acc q (bind m k) q2 s.
Proof.
  unfold obeys, bind. intros Hm Hk H. specialize (Hm H).
  destruct (m s) as [[a|rc|] s'] eqn:E; simpl in *; try exact Hm.
  apply (Hk a s' eq_refl). exact Hm.
Qed.

(** What the monitor accepts holds of the calls of a run that returns. *)
Lemma obeys_app_exec w data q rc :
  obeys delta acc 0 (app_exec_body w data) q (initial w) ->
  acc q = true ->
  fst (app_exec w data) = Some rc ->
  acc (monitor delta (rev (snd (app_exec w data)))) = true.
Proof.
  unfold obeys, app_exec. intros H Hq Hr. specialize (H eq_refl).
  destruct (app_exec_body w data (initial w)) as [r s]. simpl in *.
  rewrite rev_involutive.
  destruct r; try discriminate; [rewrite H; exact Hq | exact H].
Qed.

End Monitor.

Lemma filter_rev_length {A : Type} (f : A -> bool) l :
  List.length (filter f (rev l)) = List.length (filter f l).
Proof.
  induction l as [|a l IH]; [reflexivity|]. simpl.
  rewrite filter_app, length_app, IH. simpl.
  destruct (f a); simpl; lia.
Qed.

Lemma monitor_pending (opens closes : event float -> bool) tr :
  monitor (pending opens closes) tr = count opens tr - count closes tr.
Proof.
  unfold count. induction tr as [|e tr IH]; [reflexivity|].
  simpl. rewrite IH. unfold pending.
  destruct (opens e), (closes e); simpl List.length; lia.
Qed.

Lemma count_either (f g : event float -> bool) tr :
  (forall e, f e = true -> g e = false) ->
  count (either f g) tr = count f tr + count g tr.
Proof.
  intros H. unfold count, either.
  induction tr as [|e tr IH]; [reflexivity|]. simpl filter.
  destruct (f e) eqn:Ef; [rewrite (H e Ef)|]; simpl orb.
  - simpl List.length. lia.
  - destruct (g e); simpl List.length; lia.
Qed.

Lemma count_no_call (tr : list (event float)) : count no_call tr = 0.
Proof.
  unfold count. induction tr as [|e tr IH]; [reflexivity | exact IH].
Qed.

(** In a run that returns, the calls that open are [final] more than the
    calls that close. *)
Lemma pending_app_exec (opens closes : event float -> bool) final w data rc :
  obeys (pending opens closes) (Z.eqb final) 0 (app_exec_body w data) final
        (initial w) ->
  fst (app_exec w data) = Some rc ->
  count opens (snd (app_exec w data))
  = count closes (snd (app_exec w data)) + final.
Proof.
  intros H Hr.
  pose proof (obeys_app_exec _ _ w data final rc H (Z.eqb_refl final) Hr)
    as Ha.
  apply Z.eqb_eq in Ha. rewrite monitor_pending in Ha.
  unfold count in *. rewrite !filter_rev_length in Ha. lia.
Qed.

(** The state of the monitor after a call. *)
Ltac monitor_call :=
  apply obeys_call;
  lazymatch goal with
  | |- ?l = _ => let v := eval lazy in l in exact (eq_refl v)
  end.

(** One statement under a monitor. *)
Ltac obeys_step :=
  lazymatch goal with
  | |- obeys _ _ _ (bind _ _) _ _ => eapply obeys_bind; [|intros ? ? _]
  | |- obeys _ _ _ (ret _) _ _ => apply obeys_ret
  | |- obeys _ _ _ (return_ _) _ _ => apply obeys_return_; reflexivity
  | |- obeys _ _ _ undefined _ _ => apply obeys_undefined
  | |- obeys _ _ _ (call _) _ _ => monitor_call
  | |- obeys _ _ _ (ast_log _ _ _) _ _ => monitor_call
  | |- obeys _ _ _ (ast_debug _ _ _) _ _ => monitor_call
  | |- obeys _ _ _ ast_config_destroy _ _ => monitor_call
  | |- obeys _ _ _ (answer_unless_up _) _ _ =>
      apply obeys_answer_unless_up; reflexivity
  | |- obeys _ _ _ (malloc _ _) _ _ => apply obeys_malloc
  | |- obeys _ _ _ (if ?c then _ else _) _ _ => destruct c
  | |- obeys _ _ _ (match ?c with _ => _ end) _ _ => destruct c
  | |- obeys _ _ _ (ast_streamfile _ _) _ _ => unfold ast_streamfile
  | |- obeys _ _ _ (ast_waitstream _ _) _ _ => unfold ast_waitstream
  | |- obeys _ _ _ (ast_config_load _ _) _ _ => unfold ast_config_load
  | |- obeys _ _ _ (memcpy _ _ _) _ _ => unfold memcpy
  | |- obeys _ _ _ (fopen _ _) _ _ => unfold fopen
  | |- obeys _ _ _ (sf_open _ _ _ _ _) _ _ => unfold sf_open
  | |- obeys _ _ _ (initialised _) _ _ => unfold initialised
  | |- obeys _ _ _ (cache_mechanism _ _ _ _) _ _ => unfold cache_mechanism
  | |- obeys _ _ _ (supported_rate _) _ _ => unfold supported_rate
  | |- obeys _ _ _ (resample _ _ _ _ _ _ _) _ _ => unfold resample
  | |- obeys _ _ _ (sf_readf_float _ _ _ _ _) _ _ => unfold sf_readf_float
  | |- obeys _ _ _ (src_simple _) _ _ => unfold src_simple
  | |- obeys _ _ _ (sf_writef_float _ _ _) _ _ => unfold sf_writef_float
  | |- obeys _ _ _ _ _ _ => progress cbv zeta
  end.

Ltac monitored := unfold app_exec_body; repeat obeys_step.

Lemma configuration_loaded w data s :
  ast_strlen_zero data = false ->
  obeys (pending is_config_load no_call) (Z.eqb 1) 0
        (app_exec_body w data) 1 s.
Proof. intros Hdata. unfold app_exec_body. rewrite Hdata. monitored. Qed.

Lemma configuration_pending w data s :
  ast_strlen_zero data = false ->
  obeys (pending is_config_load is_config_destroy) (Z.eqb 0) 0
        (app_exec_body w data) 0 s.
Proof. intros Hdata. unfold app_exec_body. rewrite Hdata. monitored. Qed.

Lemma raw_stream_pending w data s :
  obeys (pending is_fopen (either is_fclose (is_error fopen_error)))
        (Z.eqb 0) 0 (app_exec_body w data) 0 s.
Proof. monitored. Qed.

Lemma raw_file_pending w data s :
  obeys (pending is_fclose is_remove) (Z.eqb 0) 0 (app_exec_body w data) 0 s.
Proof. monitored. Qed.

Lemma sound_files_pending w data s :
  obeys (pending is_sf_open
           (either is_sf_close
              (either (is_error raw_open_error) (is_error wav_open_error))))
        (Z.eqb 0) 0 (app_exec_body w data) 0 s.
Proof. monitored. Qed.

Lemma engine_pending w data s :
  obeys (pending is_engine_start
           (either is_engine_stop (is_error fopen_error)))
        (Z.eqb 0) 0 (app_exec_body w data) 0 s.
Proof. monitored. Qed.

(** X16: a call that gets past the test of its argument and returns has
    loaded the configuration once and destroyed it once. *)
Theorem configuration_loaded_and_destroyed_once w data rc :
  ast_strlen_zero data = false ->
  fst (app_exec w data) = Some rc ->
  count is_config_load (snd (app_exec w data)) = 1 /\
  count is_config_destroy (snd (app_exec w data)) = 1.
Proof.
  intros Hdata Hr.
  pose proof (pending_app_exec _ _ _ w data rc
                (configuration_loaded w data _ Hdata) Hr) as H1.
  pose proof (pending_app_exec _ _ _ w data rc
                (configuration_pending w data _ Hdata) Hr) as H2.
  rewrite count_no_call in H1. lia.
Qed.

(** X17: in a call that returns, each [fopen] is matched by an [fclose]
    or by the error line of its failure, each [sf_open] by an [sf_close] or
    by the error line of its failure, and each raw file that was written
    and closed is removed. *)
Theorem files_closed_and_removed w data rc :
  fst (app_exec w data) = Some rc ->
  count is_fopen (snd (app_exec w data))
  = count is_fclose (snd (app_exec w data))
    + count (is_error fopen_error) (snd (app_exec w data)) /\
  count is_sf_open (snd (app_exec w data))
  = count is_sf_close (snd (app_exec w data))
    + count (is_error raw_open_error) (snd (app_exec w data))
    + count (is_error wav_open_error) (snd (app_exec w data)) /\
  count is_fclose (snd (app_exec w data))
  = count is_remove (snd (app_exec w data)).
Proof.
  intros Hr.
  pose proof (pending_app_exec _ _ _ w data rc (raw_stream_pending w data _) Hr)
    as H1.
  pose proof (pending_app_exec _ _ _ w data rc (sound_files_pending w data _)
                Hr) as H2.
  pose proof (pending_app_exec _ _ _ w data rc (raw_file_pending w data _) Hr)
    as H3.
  rewrite count_either in H1.
  2: { intros [] He; try discriminate; reflexivity. }
  rewrite !count_either in H2.
  2: { intros [[]| | | | | | | | | | | | | | | | | | | | | | | |] He;
       try discriminate; simpl in *.
       unfold raw_open_error, wav_open_error in *.
       apply String.eqb_eq in He. subst fmt. reflexivity. }
  2: { intros [] He; try discriminate; reflexivity. }
  lia.
Qed.

(** X18: in a call that returns, the engine is terminated once for each
    time it was set up, except on the return after [fopen] failed: there
    the engine is left as [espeak_Initialize] started it. *)
Theorem engine_terminated_unless_fopen_fails w data rc :
  fst (app_exec w data) = Some rc ->
  count is_engine_start (snd (app_exec w data))
  = count is_engine_stop (snd (app_exec w data))
    + count (is_error fopen_error) (snd (app_exec w data)).
Proof.
  intros Hr.
  pose proof (pending_app_exec _ _ _ w data rc (engine_pending w data _) Hr)
    as H1.
  rewrite count_either in H1.
  2: { intros [] He; try discriminate; reflexivity. }
  lia.
Qed.

(** *** The order of the calls *)

Lemma position_nonneg (e : event float) : 0 <= position e.
Proof.
  destruct e as [| | | | | | | | | | | | |[]| | | | | |?[]| | | | |];
    simpl; lia.
Qed.

Lemma StronglySorted_snoc (l : list Z) x :
  Sorted.StronglySorted Z.le l -> Forall (fun y => y <= x) l ->
  Sorted.StronglySorted Z.le (l ++ [x]).
Proof.
  induction 1 as [|a l _ IH Ha]; intros Hx; simpl.
  - repeat constructor.
  - inversion Hx as [|? ? Hax Hlx]; subst. constructor.
    + apply IH. exact Hlx.
    + apply Forall_app. split; [exact Ha | repeat constructor; exact Hax].
Qed.

Lemma positions_app (l1 l2 : list (event float)) :
  positions (l1 ++ l2) = positions l1 ++ positions l2.
Proof. unfold positions. rewrite map_app, filter_app. reflexivity. Qed.

(** While the monitor of the order is not at -1, the places of the calls
    so far are sorted and none is beyond the state of the monitor. *)
Lemma monitor_in_order (tr : list (event float)) :
  0 <= monitor in_order tr ->
  Sorted.StronglySorted Z.le (positions (rev tr)) /\
  Forall (fun k => k <= monitor in_order tr) (positions (rev tr)).
Proof.
  induction tr as [|e tr IH]; simpl.
  - intros _. split; constructor.
  - set (q := monitor in_order tr) in *. unfold in_order.
    pose proof (position_nonneg e) as He.
    destruct (Z.ltb_spec q 0) as [|Hq]; [lia|].
    rewrite positions_app. unfold positions at 2 4. simpl.
    destruct (Z.eqb_spec (position e) 0) as [E0|E0].
    + intros _. rewrite E0. simpl. rewrite !app_nil_r. apply IH. exact Hq.
    + destruct (Z.leb_spec q (position e)) as [Hle|]; [|lia]. intros _.
      destruct (IH Hq) as [Hs Hb].
      replace (0 <? position e) with true by (symmetry; apply Z.ltb_lt; lia).
      assert (Hall : Forall (fun y => y <= position e) (positions (rev tr))).
      { eapply Forall_impl; [|exact Hb]. simpl. intros; lia. }
      split.
      * apply StronglySorted_snoc; assumption.
      * apply Forall_app. split; [exact Hall | repeat constructor; lia].
Qed.

Lemma orderly_ret {A : Type} q q' (a : A) s :
  q <= q' -> orderly q (ret a) q' s.
Proof. intros Hq [H0 H1]. simpl. split; [exact H0 | intros _ _; lia]. Qed.

Lemma orderly_return_ {A : Type} q q' rc s :
  orderly q (return_ rc : exec float A) q' s.
Proof. intros [H0 H1]. simpl. split; [exact H0 | discriminate]. Qed.

Lemma orderly_undefined {A : Type} q q' s :
  orderly q (undefined : exec float A) q' s.
Proof. intros [H0 H1]. simpl. split; [exact H0 | discriminate]. Qed.

Lemma orderly_malloc w n q q' s : q <= q' -> orderly q (malloc w n) q' s.
Proof. intros Hq [H0 H1]. simpl. split; [exact H0 | intros _ _; lia]. Qed.

Lemma orderly_call q q' e s :
  (position e = 0 \/ q <= position e) -> Z.max q (position e) <= q' ->
  orderly q (call e) q' s.
Proof.
  intros He Hq [H0 H1]. simpl.
  set (q0 := monitor in_order (trace s)) in *. unfold in_order.
  pose proof (position_nonneg e) as Hp.
  destruct (Z.ltb_spec q0 0); [lia|].
  destruct (Z.eqb_spec (position e) 0); [split; [|intros _ _]; lia|].
  destruct (Z.leb_spec q0 (position e)); split; try intros _ _; lia.
Qed.

Lemma orderly_answer_unless_up w q q' s :
  q <= q' -> orderly q (answer_unless_up w) q' s.
Proof.
  intros Hq H. unfold answer_unless_up. destruct (chan_up s).
  - apply (orderly_ret q q' tt s Hq H).
  - apply (orderly_call q q' ev_ast_answer s); [left; reflexivity | | exact H].
    simpl. lia.
Qed.

Lemma orderly_bind {A B : Type} (m : exec float A) (k : A -> exec float B)
    q q1 q2 s :
  orderly q m q1 s ->
  (forall a s', m s = (Next a, s') -> orderly q1 (k a) q2 s') ->
  orderly q (bind m k) q2 s.
Proof.
  unfold orderly, bind. intros Hm Hk H. destruct (Hm H) as [H0 H1].
  destruct (m s) as [[a|rc|] s'] eqn:E; simpl in *.
  - apply (Hk a s' eq_refl). split; [exact H0 | apply (H1 a); reflexivity].
  - split; [exact H0 | discriminate].
  - split; [exact H0 | discriminate].
Qed.

(** The latest place after a statement: the one that the statement
    reaches, when it is not fixed yet. *)
Ltac latest :=
  lazymatch goal with
  | |- ?a <= ?b =>
      first [ is_evar b; let v := eval lazy in a in unify b v; apply Z.le_refl
            | apply Zle_bool_imp_le; lazy; reflexivity ]
  end.

Ltac orderly_call_step :=
  apply orderly_call;
  [ first [left; reflexivity | right; apply Zle_bool_imp_le; lazy; reflexivity]
  | latest ].

(** One statement that keeps the calls in order. *)
Ltac orderly_step :=
  lazymatch goal with
  | |- orderly _ (bind _ _) _ _ => eapply orderly_bind; [|intros ? ? _]
  | |- orderly _ (ret _) _ _ => apply orderly_ret; latest
  | |- orderly _ (return_ _) _ _ => apply orderly_return_
  | |- orderly _ undefined _ _ => apply orderly_undefined
  | |- orderly _ (call _) _ _ => orderly_call_step
  | |- orderly _ (ast_log _ _ _) _ _ => orderly_call_step
  | |- orderly _ (ast_debug _ _ _) _ _ => orderly_call_step
  | |- orderly _ ast_config_destroy _ _ => orderly_call_step
  | |- orderly _ (answer_unless_up _) _ _ =>
      apply orderly_answer_unless_up; latest
  | |- orderly _ (malloc _ _) _ _ => apply orderly_malloc; latest
  | |- orderly _ (if ?c then _ else _) _ _ => destruct c
  | |- orderly _ (match ?c with _ => _ end) _ _ => destruct c
  | |- orderly _ (ast_streamfile _ _) _ _ => unfold ast_streamfile
  | |- orderly _ (ast_waitstream _ _) _ _ => unfold ast_waitstream
  | |- orderly _ (ast_config_load _ _) _ _ => unfold ast_config_load
  | |- orderly _ (memcpy _ _ _) _ _ => unfold memcpy
  | |- orderly _ (fopen _ _) _ _ => unfold fopen
  | |- orderly _ (sf_open _ _ _ _ _) _ _ => unfold sf_open
  | |- orderly _ (initialised _) _ _ => unfold initialised
  | |- orderly _ (cache_mechanism _ _ _ _) _ _ => unfold cache_mechanism
  | |- orderly _ (supported_rate _) _ _ => unfold supported_rate
  | |- orderly _ (resample _ _ _ _ _ _ _) _ _ => unfold resample
  | |- orderly _ (sf_readf_float _ _ _ _ _) _ _ => unfold sf_readf_float
  | |- orderly _ (src_simple _) _ _ => unfold src_simple
  | |- orderly _ (sf_writef_float _ _ _) _ _ => unfold sf_writef_float
  | |- orderly _ _ _ _ => progress cbv zeta
  end.

Lemma app_exec_body_orderly w data s :
  orderly 0 (app_exec_body w data) 22 s.
Proof. unfold app_exec_body. repeat orderly_step. Qed.

(** X19: the calls of the engine and the calls on the temporary files
    come in the order of the source: the engine is started, given the
    callback, the voice and the five parameters, the raw file is created,
    the text is synthesised, the engine is terminated and the raw file
    closed; then the raw and the wav file are opened, the frames are read,
    resampled and written, the files are closed and the raw file is
    removed, and the wav file is copied to the cache before it is
    deleted.  This holds of every run, up to the point where it stops. *)
Theorem calls_in_source_order w data :
  Sorted.StronglySorted Z.le (positions (snd (app_exec w data))).
Proof.
  pose proof (app_exec_body_orderly w data (initial w)) as H.
  unfold orderly, app_exec in *.
  destruct (app_exec_body w data (initial w)) as [r s]. simpl in *.
  destruct H as [H _]; [lia|].
  apply monitor_in_order in H as [Hs _]. exact Hs.
Qed.

(** *** The channel *)

Lemma keeps_ret {A : Type} (I : state float -> Prop) (a : A) s :
  keeps I (ret a) s.
Proof. intros H. exact H. Qed.

Lemma keeps_return_ {A : Type} (I : state float -> Prop) rc s :
  keeps I (return_ rc : exec float A) s.
Proof. intros H. exact H. Qed.

Lemma keeps_undefined {A : Type} (I : state float -> Prop) s :
  keeps I (undefined : exec float A) s.
Proof. intros H. exact H. Qed.

Lemma keeps_bind {A B : Type} (I : state float -> Prop) (m : exec float A)
    (k : A -> exec float B) s :
  keeps I m s ->
  (forall a s', m s = (Next a, s') -> keeps I (k a) s') ->
  keeps I (bind m k) s.
Proof.
  unfold keeps, bind. intros Hm Hk H. specialize (Hm H).
  destruct (m s) as [[a|rc|] s'] eqn:E; simpl in *; try exact Hm.
  apply (Hk a s' eq_refl). exact Hm.
Qed.

Lemma keeps_call w e s :
  is_answer e = false -> keeps (answered_as_needed w) (call e) s.
Proof.
  unfold keeps, answered_as_needed, count. simpl. intros ->. auto.
Qed.

Lemma keeps_malloc w n s : keeps (answered_as_needed w) (malloc w n) s.
Proof. intros H. exact H. Qed.

Lemma keeps_answer_unless_up w s :
  w_chan_up w = true \/ w_answer w = true ->
  keeps (answered_as_needed w) (answer_unless_up w) s.
Proof.
  intros Hw. unfold keeps, answered_as_needed, answer_unless_up, count.
  destruct (chan_up s) eqn:Eup; simpl; [rewrite Eup; auto|].
  intros [Hdown Hnone]. rewrite Hdown in *.
  destruct Hw as [Hw | Hw]; [discriminate|]; rewrite Hw. simpl List.length. lia.
Qed.

(** One statement that keeps the channel as needed. *)
Ltac keeps_step Hw :=
  lazymatch goal with
  | |- keeps _ (bind _ _) _ => apply keeps_bind; [|intros ? ? _]
  | |- keeps _ (ret _) _ => apply keeps_ret
  | |- keeps _ (return_ _) _ => apply keeps_return_
  | |- keeps _ undefined _ => apply keeps_undefined
  | |- keeps _ (call _) _ => apply keeps_call; reflexivity
  | |- keeps _ (ast_log _ _ _) _ => apply keeps_call; reflexivity
  | |- keeps _ (ast_debug _ _ _) _ => apply keeps_call; reflexivity
  | |- keeps _ ast_config_destroy _ => apply keeps_call; reflexivity
  | |- keeps _ (answer_unless_up _) _ => apply keeps_answer_unless_up; exact Hw
  | |- keeps _ (malloc _ _) _ => apply keeps_malloc
  | |- keeps _ (if ?c then _ else _) _ => destruct c
  | |- keeps _ (match ?c with _ => _ end) _ => destruct c
  | |- keeps _ (ast_streamfile _ _) _ => unfold ast_streamfile
  | |- keeps _ (ast_waitstream _ _) _ => unfold ast_waitstream
  | |- keeps _ (ast_config_load _ _) _ => unfold ast_config_load
  | |- keeps _ (memcpy _ _ _) _ => unfold memcpy
  | |- keeps _ (fopen _ _) _ => unfold fopen
  | |- keeps _ (sf_open _ _ _ _ _) _ => unfold sf_open
  | |- keeps _ (initialised _) _ => unfold initialised
  | |- keeps _ (cache_mechanism _ _ _ _) _ => unfold cache_mechanism
  | |- keeps _ (supported_rate _) _ => unfold supported_rate
  | |- keeps _ (resample _ _ _ _ _ _ _) _ => unfold resample
  | |- keeps _ (sf_readf_float _ _ _ _ _) _ => unfold sf_readf_float
  | |- keeps _ (src_simple _) _ => unfold src_simple
  | |- keeps _ (sf_writef_float _ _ _) _ => unfold sf_writef_float
  | |- keeps _ _ _ => progress cbv zeta
  end.

Lemma app_exec_body_answers w data s :
  w_chan_up w = true \/ w_answer w = true ->
  keeps (answered_as_needed w) (app_exec_body w data) s.
Proof. intros Hw. unfold app_exec_body. repeat keeps_step Hw. Qed.

(** X20: a channel that is up when the call starts is not answered, and
    when [ast_answer] brings the channel up it is called at most once,
    also when the cached file could not be played and the text is
    synthesised after all. *)
Theorem channel_answered_as_needed w data :
  (w_chan_up w = true ->
   count is_answer (snd (app_exec w data)) = 0) /\
  (w_answer w = true ->
   count is_answer (snd (app_exec w data)) <= 1).
Proof.
  assert (H : w_chan_up w = true \/ w_answer w = true ->
              count is_answer (snd (app_exec w data))
              <= (if w_chan_up w then 0 else 1)).
  { intros Hw. pose proof (app_exec_body_answers w data (initial w) Hw) as H.
    unfold keeps, app_exec, answered_as_needed in *.
    destruct (app_exec_body w data (initial w)) as [r s]. simpl in *.
    unfold count in *. rewrite filter_rev_length.
    destruct (w_chan_up w), (chan_up s); simpl in H; lia. }
  assert (H0 : 0 <= count is_answer (snd (app_exec w data)))
    by (unfold count; lia).
  split; intros Hw.
  - specialize (H (or_introl Hw)). rewrite Hw in H. lia.
  - specialize (H (or_intror Hw)). destruct (w_chan_up w); lia.
Qed.

(** *** Undefined behaviour *)

Lemma defined_ret {A : Type} (a : A) s : defined (ret a) s.
Proof. discriminate. Qed.

Lemma defined_return_ {A : Type} rc s :
  defined (return_ rc : exec float A) s.
Proof. discriminate. Qed.

Lemma defined_call e s : defined (call e) s.
Proof. discriminate. Qed.

Lemma defined_malloc w n s : defined (malloc w n) s.
Proof. discriminate. Qed.

Lemma defined_answer_unless_up w s : defined (answer_unless_up w) s.
Proof.
  unfold defined, answer_unless_up. destruct (chan_up s); discriminate.
Qed.

Lemma defined_bind {A B : Type} (m : exec float A) (k : A -> exec float B)
    s :
  defined m s ->
  (forall a s', m s = (Next a, s') -> defined (k a) s') ->
  defined (bind m k) s.
Proof.
  unfold defined, bind. intros Hm Hk.
  destruct (m s) as [[a|rc|] s'] eqn:E; simpl in *.
  - apply (Hk a s' eq_refl).
  - discriminate.
  - contradiction Hm. reflexivity.
Qed.

(** One statement that cannot be undefined. *)
Ltac defined_step :=
  lazymatch goal with
  | |- defined (bind _ _) _ => apply defined_bind; [|intros ? ? _]
  | |- defined (ret _) _ => apply defined_ret
  | |- defined (return_ _) _ => apply defined_return_
  | |- defined (call _) _ => apply defined_call
  | |- defined (ast_log _ _ _) _ => apply defined_call
  | |- defined (ast_debug _ _ _) _ => apply defined_call
  | |- defined ast_config_destroy _ => apply defined_call
  | |- defined (answer_unless_up _) _ => apply defined_answer_unless_up
  | |- defined (malloc _ _) _ => apply defined_malloc
  | |- defined (ast_streamfile _ _) _ => unfold ast_streamfile
  | |- defined (ast_waitstream _ _) _ => unfold ast_waitstream
  | |- defined (ast_config_load _ _) _ => unfold ast_config_load
  | |- defined (fopen _ _) _ => unfold fopen
  | |- defined (sf_open _ _ _ _ _) _ => unfold sf_open
  | |- defined (cache_mechanism _ _ _ _) _ => unfold cache_mechanism
  | |- defined (supported_rate _) _ => unfold supported_rate
  | |- defined (src_simple _) _ => unfold src_simple
  | |- defined (if ?c then _ else _) _ => destruct c
  | |- defined (match ?c with _ => _ end) _ => destruct c
  | |- defined _ _ => progress cbv zeta
  end.

Ltac sound := repeat defined_step.

Lemma malloc_block w n s ptr s' :
  (forall k, w_malloc w k = true) ->
  malloc w n s = (Next ptr, s') ->
  (0 <= n < 2 ^ 62 -> ptr = Some (repeat Undef (Z.to_nat n))) /\
  (n < 0 -> ptr = None).
Proof.
  intros Hm. unfold malloc. rewrite Hm, andb_true_r.
  intros E. injection E as <- _.
  destruct (Z.leb_spec 0 n); simpl.
  - split; [|lia]. intros [_ Hn].
    match goal with
    | |- context [if ?c then _ else _] => destruct c eqn:C
    end; [reflexivity|].
    apply Z.ltb_ge in C. lia.
  - split; [lia | reflexivity].
Qed.

Lemma sf_readf_float_defined w name stored block n s :
  Z.of_nat (List.length block) = n ->
  defined (sf_readf_float w name stored (Some block) n) s.
Proof.
  intros Hlen. unfold sf_readf_float. cbv zeta.
  match goal with
  | |- context [if ?c then _ else _] => destruct c eqn:C
  end; [|sound].
  apply Z.ltb_lt in C. lia.
Qed.

Lemma sf_readf_float_block w name stored block n s ptr s' :
  Z.of_nat (List.length block) = n ->
  sf_readf_float w name stored (Some block) n s = (Next ptr, s') ->
  exists block', ptr = Some block' /\ Z.of_nat (List.length block') = n.
Proof.
  intros Hlen E.
  destruct (sf_readf_float_next w name stored (Some block) n s _ _
              (fun b Hb => eq_trans (f_equal (fun x => Z.of_nat (List.length x))
                                       (eq_sym (f_equal cells Hb))) Hlen) E)
    as [[Hu _]|[src [Hs [_ Hl]]]]; [discriminate|].
  injection Hs as <-.
  unfold sf_readf_float in E. cbv zeta in E.
  match type of E with
  | context [if ?c then _ else _] => destruct c
  end; [discriminate|].
  unfold bind, call, ret in E. simpl in E. injection E as <- _.
  eexists. split; [reflexivity|]. apply Hl. reflexivity.
Qed.

(** The frame count of line 256 when the product fits: no more than the
    product, and the source count when the rates are the same. *)
Lemma dst_frames_bound N rate sr :
  0 <= N -> 0 < rate -> sr <> 0 -> N * rate < 2 ^ 62 ->
  dst_frames N rate sr <= N * rate /\
  (0 < dst_frames N rate sr -> 0 < sr) /\
  (sr = rate -> dst_frames N rate sr = N).
Proof.
  intros HN Hr Hs Hfit. unfold dst_frames.
  assert (H0 : 0 <= N * rate) by lia.
  rewrite (wrap64_small (N * rate)) by lia.
  destruct (Z.lt_trichotomy sr 0) as [Hneg|[->|Hpos]]; [|contradiction|].
  - replace sr with (- - sr) by lia.
    rewrite Z.quot_opp_r by lia.
    rewrite Z.quot_div_nonneg by lia.
    assert (0 <= N * rate / - sr) by (apply Z.div_pos; lia).
    assert (N * rate / - sr <= N * rate)
      by (apply Z.div_le_upper_bound; nia).
    rewrite wrap64_small by lia. repeat split; lia.
  - rewrite Z.quot_div_nonneg by lia.
    assert (0 <= N * rate / sr) by (apply Z.div_pos; lia).
    assert (N * rate / sr <= N * rate)
      by (apply Z.div_le_upper_bound; nia).
    rewrite wrap64_small by lia. repeat split; try lia.
    intros ->. apply Z.div_mul. lia.
Qed.

Lemma resample_defined w raw wav stored src_info sr rate s :
  (forall k, w_malloc w k = true) ->
  sr <> 0 ->
  rate = 8000 \/ rate = 16000 ->
  frames src_info = Z.of_nat (List.length stored) ->
  frames src_info * 16000 < 2 ^ 62 ->
  defined (resample w raw wav stored src_info sr rate) s.
Proof.
  intros Hm Hsr Hrate HN Hfit. unfold resample.
  set (N := frames src_info) in *.
  assert (HN0 : 0 <= N) by lia.
  destruct (dst_frames_bound N rate sr) as [Hle [Hpos Hsame]];
    try lia.
  apply defined_bind; [apply defined_malloc|]. intros src s1 E1.
  destruct (malloc_block _ _ _ _ _ Hm E1) as [Hsrc _]. clear E1.
  rewrite Hsrc by lia. clear Hsrc src.
  assert (Hlen : Z.of_nat (List.length (repeat (@Undef float) (Z.to_nat N)))
                 = N)
    by (rewrite repeat_length; lia).
  apply defined_bind; [apply sf_readf_float_defined; exact Hlen|].
  intros src s2 E2.
  destruct (sf_readf_float_block _ _ _ _ _ _ _ _ Hlen E2)
    as [block [-> Hblock]].
  clear E2 Hlen.
  destruct (Z.eqb_spec sr 0) as [|_]; [contradiction|]. cbv zeta.
  set (n := dst_frames N rate sr) in *.
  apply defined_bind; [apply defined_malloc|]. intros dst s3 E3.
  destruct (malloc_block _ _ _ _ _ Hm E3) as [Hdst Hnull]. clear E3.
  apply defined_bind.
  { destruct (Z.eqb_spec sr rate) as [Er|Er]; simpl negb; cbv iota; [|sound].
    unfold memcpy. rewrite (Hsame Er).
    destruct (Z.eqb_spec N 0); [sound|].
    rewrite Hdst by (rewrite (Hsame Er); lia). rewrite (Hsame Er).
    rewrite repeat_length, Hblock, Z2Nat.id, Z.leb_refl by lia.
    replace (0 <? N) with true by (symmetry; apply Z.ltb_lt; lia).
    apply defined_ret. }
  intros dst' s4 E4.
  apply defined_bind; [|intros _ ? _; sound].
  unfold sf_writef_float.
  destruct (Z.leb_spec n 0) as [|Hn]; [sound|].
  rewrite Hdst in E4 by lia.
  assert (Hroom : List.length (repeat (@Undef float) (Z.to_nat n)) = Z.to_nat n)
    by apply repeat_length.
  destruct (Z.eqb_spec sr rate) as [Er|Er]; simpl negb in E4; cbv iota in E4.
  - unfold memcpy in E4. destruct (n =? 0); [injection E4 as <- _|].
    + rewrite Hroom, Z2Nat.id, Z.leb_refl by lia. apply defined_call.
    + destruct (_ && _) in E4; [|discriminate]. injection E4 as <- _.
      rewrite overwrite_length, Hroom, Z2Nat.id, Z.leb_refl; try lia;
        [apply defined_call|].
      rewrite length_firstn, Hroom. lia.
  - unfold src_simple, bind, call, ret in E4. simpl in E4.
    injection E4 as <- _.
    rewrite overwrite_length, Hroom, Z2Nat.id, Z.leb_refl; try lia; [sound|].
    rewrite length_firstn, Hroom. lia.
Qed.

Lemma app_exec_body_defined w data s :
  (forall k, w_malloc w k = true) ->
  w_espeak_Initialize w <> 0 ->
  (forall voice txt,
     Z.of_nat (List.length (w_wave w voice txt)) * 16000 < 2 ^ 62) ->
  defined (app_exec_body w data) s.
Proof.
  intros Hm Hsr Hfit. unfold app_exec_body.
  destruct (ast_strlen_zero data); [sound|].
  apply defined_bind; [sound|]. intros cfg s1 E1.
  apply ast_config_load_next in E1 as ->.
  apply defined_bind; [sound|]. intros st s2 E2.
  apply settings_next in E2 as ->. cbv zeta.
  apply defined_bind; [sound|]. intros rate s3 E3.
  apply supported_rate_next in E3 as ->.
  apply defined_bind; [sound|]. intros _ s4 _.
  apply defined_bind; [sound|]. intros cache s5 _.
  fold (tmp_file w). rewrite temp_names_in_effect. simpl fst. simpl snd.
  apply defined_bind; [sound|]. intros _ s6 _.
  destruct (w_espeak_Initialize w =? -1); [sound|].
  do 7 (apply defined_bind; [sound|]; intros _ ? _).
  unfold initialised at 1.
  apply defined_bind; [sound|]. intros raw_name s7 E7. injection E7 as <- _.
  apply defined_bind; [sound|]. intros fl s8 _.
  destruct (negb fl); [sound|].
  do 3 (apply defined_bind; [sound|]; intros _ ? _).
  apply defined_bind; [sound|]. intros src_file s9 E9.
  destruct src_file as [src_info|]; [|sound].
  apply sf_open_read_next in E9.
  unfold initialised at 1.
  apply defined_bind; [sound|]. intros wav_name s10 E10. injection E10 as <- _.
  apply defined_bind; [sound|]. intros dst_file s11 _.
  destruct dst_file as [_|]; [|sound].
  apply defined_bind; [|intros _ ? _; sound].
  apply resample_defined; try assumption.
  - apply rate_in_effect_supported.
  - rewrite E9. apply Hfit.
Qed.

(** X21: when every [malloc] returns a block, the engine reports a sample
    rate other than zero and the synthesised wave has fewer than
    2^62 / 16000 samples, the call does not stop at undefined behaviour: no
    buffer is read or written through a null pointer or past its end, no
    name is used before it is set and the frame count is not divided by
    zero.  The call returns a value, whatever the other collaborators
    answer. *)
Theorem call_returns_without_undefined_behaviour w data :
  (forall k, w_malloc w k = true) ->
  w_espeak_Initialize w <> 0 ->
  (forall voice txt,
     Z.of_nat (List.length (w_wave w voice txt)) * 16000 < 2 ^ 62) ->
  exists rc, fst (app_exec w data) = Some rc.
Proof.
  intros Hm Hsr Hfit.
  pose proof (app_exec_body_defined w data (initial w) Hm Hsr Hfit) as H.
  unfold defined, app_exec in *.
  destruct (app_exec_body w data (initial w)) as [[rc|rc|] s]; simpl in *.
  - exists rc. reflexivity.
  - exists rc. reflexivity.
  - contradiction.
Qed.

(** *** The temporary names *)

Lemma string_of_uint_length d :
  String.length (NilEmpty.string_of_uint d) = Decimal.nb_digits d.
Proof. induction d; simpl; congruence. Qed.

Lemma usize_nb_digits d :
  DecimalPos.Unsigned.usize d = N.of_nat (Decimal.nb_digits d).
Proof.
  induction d; simpl DecimalPos.Unsigned.usize; simpl Decimal.nb_digits;
    rewrite ?IHd; lia.
Qed.

Lemma unorm_to_uint p : Decimal.unorm (Pos.to_uint p) = Pos.to_uint p.
Proof.
  rewrite <- (DecimalPos.Unsigned.to_of (Pos.to_uint p)).
  rewrite DecimalPos.Unsigned.of_to. reflexivity.
Qed.

(** The decimal digits of a positive number start with a digit other than
    0, so the number is at least the power of ten of the digits that
    follow. *)
Lemma to_uint_digits p :
  exists d,
    Decimal.nb_digits (Pos.to_uint p) = S (Decimal.nb_digits d) /\
    (10 ^ N.of_nat (Decimal.nb_digits d) <= N.pos p)%N.
Proof.
  pose proof (unorm_to_uint p) as Hn.
  pose proof (DecimalPos.Unsigned.of_to p) as Hv.
  rewrite DecimalPos.Unsigned.of_uint_alt in Hv.
  destruct (Pos.to_uint p) as [|d|d|d|d|d|d|d|d|d|d] eqn:E.
  1: { exfalso. apply (DecimalPos.Unsigned.to_uint_nonnil p). exact E. }
  1: { exfalso. unfold Decimal.unorm in Hn. simpl Decimal.nzhead in Hn.
       pose proof (DecimalFacts.nb_digits_nzhead d) as Hd.
       destruct (Decimal.nzhead d) eqn:Ez;
         [ apply (DecimalPos.Unsigned.to_uint_nonzero p); rewrite E; symmetry;
           exact Hn
         | rewrite Hn in Hd; simpl in Hd; lia .. ]. }
  all: exists d; split; [reflexivity|].
  all: unfold Decimal.rev in Hv; simpl Decimal.revapp in Hv;
    rewrite DecimalPos.Unsigned.of_lu_revapp in Hv;
    simpl DecimalPos.Unsigned.of_lu in Hv;
    rewrite usize_nb_digits in Hv; lia.
Qed.

Lemma format_li_length z :
  0 <= z < 10 ^ 10 -> (String.length (format_li z) <= 10)%nat.
Proof.
  intros [H0 H1]. unfold format_li. destruct z as [|p|p]; [simpl; lia| |lia].
  simpl Z.to_int. simpl NilZero.string_of_int.
  unfold NilZero.string_of_uint.
  destruct (to_uint_digits p) as [d [Hd Hp]].
  assert (Hlen : String.length (NilEmpty.string_of_uint (Pos.to_uint p))
                 = S (Decimal.nb_digits d))
    by (rewrite string_of_uint_length; exact Hd).
  assert (Hlt : (N.of_nat (Decimal.nb_digits d) < 10)%N).
  { apply (N.pow_lt_mono_r_iff 10); [lia|].
    eapply N.le_lt_trans; [exact Hp|]. lia. }
  destruct (Pos.to_uint p); simpl in Hd; try discriminate; rewrite Hlen; lia.
Qed.

(** X22: for a random number of 31 bits, as [random] of libc returns, the
    three names fit their arrays: [tmp_name] holds the whole number, the
    raw and the wav name hold [tmp_name] with their extension, and the two
    differ. *)
Theorem temporary_names_fit w :
  0 <= w_random w < 2 ^ 31 ->
  tmp_file w = ("/tmp/eSpeak_" ++ format_li (w_random w))%string /\
  raw_file w = (tmp_file w ++ ".raw")%string /\
  wav_file w =
    String.append (tmp_file w)
      (if rate_in_effect w =? 16000 then ".wav16" else ".wav") /\
  raw_file w <> wav_file w.
Proof.
  intros Hr.
  assert (Hlen : (String.length (format_li (w_random w)) <= 10)%nat)
    by (apply format_li_length; lia).
  assert (Htmp : tmp_file w
                 = ("/tmp/eSpeak_" ++ format_li (w_random w))%string).
  { unfold tmp_file. apply snprintf_fits. rewrite append_length. simpl. lia. }
  assert (Hraw : raw_file w = (tmp_file w ++ ".raw")%string).
  { unfold raw_file. apply snprintf_fits.
    rewrite append_length, Htmp, append_length. simpl. lia. }
  assert (Hwav : wav_file w =
                 String.append (tmp_file w)
                   (if rate_in_effect w =? 16000 then ".wav16" else ".wav")).
  { unfold wav_file. apply snprintf_fits.
    rewrite append_length, Htmp, append_length.
    destruct (rate_in_effect w =? 16000); simpl; lia. }
  repeat split; try assumption.
  rewrite Hraw, Hwav. intros H. apply append_inv_head in H.
  destruct (rate_in_effect w =? 16000); discriminate.
Qed.

(** *** The value returned *)

Lemma returns_in_bind {A B : Type} (R : Z -> Prop) (m : exec float A)
    (k : A -> exec float B) s :
  returns_in R m s ->
  (forall a s', m s = (Next a, s') -> returns_in R (k a) s') ->
  returns_in R (bind m k) s.
Proof.
  unfold returns_in, bind. intros Hm Hk.
  destruct (m s) as [[a|rc|] s'] eqn:E; simpl in *; auto.
  apply (Hk a s' eq_refl).
Qed.

Lemma results_in_bind {A : Type} (R : Z -> Prop) (m : exec float A)
    (k : A -> exec float Z) s :
  returns_in R m s ->
  (forall a s', m s = (Next a, s') -> results_in R (k a) s') ->
  results_in R (bind m k) s.
Proof.
  unfold returns_in, results_in, bind. intros Hm Hk.
  destruct (m s) as [[a|rc|] s'] eqn:E; simpl in *; auto.
  apply (Hk a s' eq_refl).
Qed.

(** One statement that does not return, or returns -1. *)
Ltac returns_step :=
  lazymatch goal with
  | |- returns_in _ (bind _ _) _ => apply returns_in_bind; [|intros ? ? _]
  | |- results_in _ (bind _ _) _ => apply results_in_bind; [|intros ? ? _]
  | |- returns_in _ (return_ _) _ => left; reflexivity
  | |- results_in _ (return_ _) _ => left; reflexivity
  | |- returns_in _ (if ?c then _ else _) _ => destruct c
  | |- returns_in _ (match ?c with _ => _ end) _ => destruct c
  | |- results_in _ (if ?c then _ else _) _ => destruct c
  | |- results_in _ (match ?c with _ => _ end) _ => destruct c
  | |- returns_in _ (ast_streamfile _ _) _ => unfold ast_streamfile
  | |- returns_in _ (ast_waitstream _ _) _ => unfold ast_waitstream
  | |- returns_in _ (ast_config_load _ _) _ => unfold ast_config_load
  | |- returns_in _ (memcpy _ _ _) _ => unfold memcpy
  | |- returns_in _ (fopen _ _) _ => unfold fopen
  | |- returns_in _ (sf_open _ _ _ _ _) _ => unfold sf_open
  | |- returns_in _ (initialised _) _ => unfold initialised
  | |- returns_in _ (supported_rate _) _ => unfold supported_rate
  | |- returns_in _ (resample _ _ _ _ _ _ _) _ => unfold resample
  | |- returns_in _ (sf_readf_float _ _ _ _ _) _ => unfold sf_readf_float
  | |- returns_in _ (src_simple _) _ => unfold src_simple
  | |- returns_in _ (sf_writef_float _ _ _) _ => unfold sf_writef_float
  | |- returns_in _ (answer_unless_up _) _ =>
      unfold returns_in, answer_unless_up;
      match goal with |- context [chan_up ?s] => destruct (chan_up s) end;
      exact I
  | |- returns_in _ _ _ => first [exact I | progress cbv zeta]
  | |- results_in _ _ _ => progress cbv zeta
  end.

Ltac returning := repeat returns_step.

Lemma cache_mechanism_returns w usecache cachedir args s :
  returns_in (playback_or_error w)
             (cache_mechanism w usecache cachedir args) s.
Proof.
  unfold cache_mechanism.
  destruct (usecache =? 0); [exact I|].
  destruct (_ <=? MAXLEN); [|exact I]. cbv zeta.
  apply returns_in_bind; [exact I|]. intros _ s1 _.
  destruct (_ <=? 0); [returning|].
  apply returns_in_bind; [exact I|]. intros _ s2 _.
  apply returns_in_bind; [returning|]. intros _ s3 _.
  apply returns_in_bind; [returning|]. intros res s4 _.
  destruct (negb (res =? 0)); [returning|].
  apply returns_in_bind; [returning|]. intros res' s5 E.
  apply ast_waitstream_next in E as ->.
  apply returns_in_bind; [exact I|]. intros _ s6 _.
  apply returns_in_bind; [exact I|]. intros _ s7 _.
  right. left. reflexivity.
Qed.

Lemma app_exec_body_results w data s :
  results_in (playback_or_error w) (app_exec_body w data) s.
Proof.
  unfold app_exec_body.
  destruct (ast_strlen_zero data); [returning|].
  do 4 (apply results_in_bind; [returning|]; intros ? ? _). cbv zeta.
  apply results_in_bind; [apply cache_mechanism_returns|]. intros cache s5 _.
  fold (tmp_file w).
  apply results_in_bind; [returning|]. intros _ s6 _.
  destruct (w_espeak_Initialize w =? -1); [returning|].
  do 9 (apply results_in_bind; [returning|]; intros ? ? _).
  destruct (negb _); [returning|].
  do 4 (apply results_in_bind; [returning|]; intros ? ? _).
  lazymatch goal with
  | |- results_in _ (match ?c with _ => _ end) _ => destruct c
  end; [|returning].
  do 2 (apply results_in_bind; [returning|]; intros ? ? _).
  lazymatch goal with
  | |- results_in _ (match ?c with _ => _ end) _ => destruct c
  end; [|returning].
  do 3 (apply results_in_bind; [returning|]; intros ? ? _).
  apply results_in_bind; [returning|]. intros res s7 E.
  apply ast_streamfile_next in E as ->.
  apply results_in_bind; [returning|]. intros res s8 E.
  do 2 (apply results_in_bind; [returning|]; intros ? ? _).
  unfold results_in, return_. simpl.
  destruct (Z.eqb_spec (w_streamfile w (tmp_file w)) 0) as [E0|E0];
    simpl negb in E; cbv iota in E.
  - right. left. unfold bind, ast_waitstream, call, ret in E. simpl in E.
    injection E as <- _. reflexivity.
  - right. right. unfold bind, ast_log, call, ret in E. simpl in E.
    injection E as <- _. split; [exact E0 | reflexivity].
Qed.

(** X23: the call returns -1, or what [ast_waitstream] returns, or what
    [ast_streamfile] returns for the wav file when that is not 0; so it
    returns 0 only when [ast_waitstream] returns 0. *)
Theorem value_returned w data rc :
  fst (app_exec w data) = Some rc ->
  rc = -1 \/ rc = w_waitstream w \/
  (rc <> 0 /\ rc = w_streamfile w (tmp_file w)).
Proof.
  intros Hr. pose proof (app_exec_body_results w data (initial w)) as H.
  unfold results_in, app_exec in *.
  destruct (app_exec_body w data (initial w)) as [[a|a|] s]; simpl in *;
    try discriminate; injection Hr as <-; exact H.
Qed.

(** *** The callback *)

(** X24: the callback never stops the synthesis.  Of chunks whose
    samples lie in their blocks, it appends every sample to the raw file, in
    the order the engine hands them over; the null block that ends the
    synthesis adds nothing. *)
Theorem callback_stores_every_chunk chunks fl :
  Forall in_block chunks ->
  synthesis synth_callback chunks fl
  = Some (fl ++ List.concat (map samples_of chunks)).
Proof.
  intros H. revert fl. induction H as [|c chunks Hc _ IH]; intros fl; simpl.
  - rewrite app_nil_r. reflexivity.
  - unfold synth_callback, samples_of, in_block, fwrite in *.
    destruct (c_wav c) as [block|].
    + replace ((0 <=? c_numsamples c)
               && (c_numsamples c <=? Z.of_nat (List.length block)))
        with true by (symmetry; apply andb_true_intro; split;
                      apply Z.leb_le; lia).
      simpl. rewrite IH, app_assoc. reflexivity.
    + simpl. rewrite IH. reflexivity.
Qed.

End Properties.

(** ** Sample calls *)

Import Sample.

Ltac in_trace := vm_compute; repeat (first [left; reflexivity | right]).




Lemma frame_count_truncated_witness :
  1 = 3 * rate_in_effect halved / w_espeak_Initialize halved /\
  Z.of_nat (List.length [Val (1, 32768%positive)]) = 1 /\
  (w_espeak_Initialize halved = 16000 -> rate_in_effect halved = 8000 ->
   1 = 3 / 2).
Proof.
  apply (frame_count_truncated halved (Some "hi")
           "/tmp/eSpeak_1804289383.raw"
           (Some [Val (1, 32768%positive); Val (2, 32768%positive);
                  Val (3, 32768%positive)]) 3
           "/tmp/eSpeak_1804289383.wav").
  - reflexivity.
  - reflexivity.
  - in_trace.
  - in_trace.
Defined.




(** C2, as stated, fails: three frames at 16000 Hz give one frame at
    8000 Hz, where 3 / 2 rounds to 2; and two frames at 22050 Hz give no
    frame at 8000 Hz, where the quotient 0.73 is nearer to 1. *)
Lemma frame_count_not_rounded :
  (In (ev_sf_readf_float "/tmp/eSpeak_1804289383.raw"
         (Some [Val (1, 32768%positive); Val (2, 32768%positive);
                Val (3, 32768%positive)]) 3)
      (snd (app_exec halved (Some "hi"))) /\
   In (ev_sf_writef_float "/tmp/eSpeak_1804289383.wav"
         [Val (1, 32768%positive)] 1)
      (snd (app_exec halved (Some "hi"))) /\
   1 <> round_div (3 * 8000) 16000) /\
  (In (ev_sf_readf_float "/tmp/eSpeak_1804289383.raw"
         (Some [Val (1, 32768%positive); Val (2, 32768%positive)]) 2)
      (snd (app_exec two_frames (Some "hi"))) /\
   In (ev_sf_writef_float "/tmp/eSpeak_1804289383.wav" [] 0)
      (snd (app_exec two_frames (Some "hi"))) /\
   0 <> round_div (2 * 8000) 22050 /\
   22050 < 2 * Z.abs (0 * 22050 - 2 * 8000)).
Proof.
  split.
  - split; [in_trace|]. split; [in_trace|]. vm_compute. discriminate.
  - split; [in_trace|]. split; [in_trace|].
    split; [vm_compute; discriminate | reflexivity].
Qed.

(** C4 on the code: when the second [malloc] returns no block the call
    does not return an error.  It goes on to [src_simple] with a null
    [data_out], logs no error, and ends in undefined behaviour where
    [sf_writef_float] would read two frames through the null pointer. *)
Lemma allocation_failure_not_checked :
  fst (app_exec (one_block plain) (Some "hi")) = None /\
  In (ev_src_simple
        {| data_in :=
             Some [Val (100, 32768%positive); Val (200, 32768%positive);
                   Val (300, 32768%positive); Val (400, 32768%positive);
                   Val (500, 32768%positive); Val (600, 32768%positive)];
           data_out := None; input_frames := 6; output_frames := 2;
           src_ratio := (8000, 22050) |})
     (snd (app_exec (one_block plain) (Some "hi"))) /\
  forall fmt args,
    ~ In (ev_ast_log LOG_ERROR fmt args)
         (snd (app_exec (one_block plain) (Some "hi"))).
Proof.
  split; [reflexivity|]. split; [in_trace|].
  intros fmt args H. vm_compute in H.
  repeat (destruct H as [H|H]; [discriminate|]). exact H.
Qed.

(** C5 on the code: when [sf_readf_float] delivers one frame of six the
    call does not return an error.  The buffer with five cells never
    written goes to [src_simple], the result is written and played, and the
    call returns what the playback returns. *)
Lemma short_read_not_checked :
  fst (app_exec (short_read 1 plain) (Some "hi")) = Some 0 /\
  In (ev_sf_readf_float "/tmp/eSpeak_1804289383.raw"
        (Some [Val (100, 32768%positive); Undef; Undef; Undef; Undef; Undef]) 6)
     (snd (app_exec (short_read 1 plain) (Some "hi"))) /\
  In (ev_sf_writef_float "/tmp/eSpeak_1804289383.wav"
        [Val (100, 32768%positive); Undef] 2)
     (snd (app_exec (short_read 1 plain) (Some "hi"))) /\
  In (ev_ast_streamfile "/tmp/eSpeak_1804289383")
     (snd (app_exec (short_read 1 plain) (Some "hi"))) /\
  forall fmt args,
    ~ In (ev_ast_log LOG_ERROR fmt args)
         (snd (app_exec (short_read 1 plain) (Some "hi"))).
Proof.
  split; [reflexivity|]. split; [in_trace|]. split; [in_trace|].
  split; [in_trace|].
  intros fmt args H. vm_compute in H.
  repeat (destruct H as [H|H]; [discriminate|]). exact H.
Qed.

Lemma engine_failure_returns_witness :
  fst (app_exec (no_engine plain) (Some "hi")) = Some (-1) /\
  exists pre,
    snd (app_exec (no_engine plain) (Some "hi")) = pre ++ engine_failure /\
    Forall (before 1) pre.
Proof.
  apply (engine_failure_returns (no_engine plain) (Some "hi")).
  - reflexivity.
  - in_trace.
Defined.

Lemma fopen_failure_returns_witness :
  fst (app_exec (no_fopen plain) (Some "hi")) = Some (-1) /\
  exists pre,
    snd (app_exec (no_fopen plain) (Some "hi")) =
      pre ++ fopen_failure "/tmp/eSpeak_1804289383.raw" /\
    Forall (before 2) pre.
Proof.
  apply (fopen_failure_returns (no_fopen plain) (Some "hi")).
  - reflexivity.
  - in_trace.
Defined.

Lemma raw_open_failure_returns_witness :
  fst (app_exec (sf_open_only (fun _ => false) plain) (Some "hi")) = Some (-1) /\
  exists pre,
    snd (app_exec (sf_open_only (fun _ => false) plain) (Some "hi")) =
      pre ++ raw_open_failure "/tmp/eSpeak_1804289383.raw"
               {| frames := 0; samplerate := 22050; channels := 1;
                  format := RAW_PCM_S16LE; sections := 0; seekable := 0 |} /\
    Forall (before 4) pre.
Proof.
  apply (raw_open_failure_returns (sf_open_only (fun _ => false) plain)
           (Some "hi")).
  - reflexivity.
  - in_trace.
Defined.

Lemma wav_open_failure_returns_witness :
  fst (app_exec (sf_open_only reading plain) (Some "hi")) = Some (-1) /\
  exists pre raw_name,
    snd (app_exec (sf_open_only reading plain) (Some "hi")) =
      pre ++ wav_open_failure raw_name "/tmp/eSpeak_1804289383.wav"
               {| frames := 6; samplerate := 8000; channels := 1;
                  format := WAV_PCM_S16LE; sections := 1; seekable := 1 |} /\
    Forall (before 5) pre.
Proof.
  apply (wav_open_failure_returns (sf_open_only reading plain) (Some "hi")).
  - reflexivity.
  - in_trace.
Defined.

Lemma resampler_arguments_witness :
  w_espeak_Initialize halved <> rate_in_effect halved /\
  data_in
    {| data_in := Some [Val (1, 32768%positive); Val (2, 32768%positive);
                        Val (3, 32768%positive)];
       data_out := Some [Undef]; input_frames := 3; output_frames := 1;
       src_ratio := (8000, 16000) |} =
    Some [Val (1, 32768%positive); Val (2, 32768%positive);
          Val (3, 32768%positive)] /\
  3 = 3 /\
  1 = dst_frames 3 (rate_in_effect halved) (w_espeak_Initialize halved) /\
  (8000, 16000) = (rate_in_effect halved, w_espeak_Initialize halved).
Proof.
  apply (resampler_arguments halved (Some "hi") "/tmp/eSpeak_1804289383.raw"
           (Some [Val (1, 32768%positive); Val (2, 32768%positive);
                  Val (3, 32768%positive)]) 3
           {| data_in := Some [Val (1, 32768%positive); Val (2, 32768%positive);
                               Val (3, 32768%positive)];
              data_out := Some [Undef]; input_frames := 3; output_frames := 1;
              src_ratio := (8000, 16000) |}).
  - in_trace.
  - in_trace.
Defined.

Lemma written_after_resampling_witness :
  exists generated,
    generated =
      firstn (Z.to_nat 1)
             (sinc_fastest
                (firstn (Z.to_nat 3)
                        [Val (1, 32768%positive); Val (2, 32768%positive);
                         Val (3, 32768%positive)]) 1
                (rate_in_effect halved, w_espeak_Initialize halved)) /\
    [Val (1, 32768%positive)] =
      generated ++ repeat Undef (Z.to_nat 1 - List.length generated).
Proof.
  apply (written_after_resampling halved (Some "hi")
           "/tmp/eSpeak_1804289383.raw"
           [Val (1, 32768%positive); Val (2, 32768%positive);
            Val (3, 32768%positive)] 3
           "/tmp/eSpeak_1804289383.wav").
  - vm_compute. discriminate.
  - in_trace.
  - in_trace.
Defined.

Lemma nonempty_argument_proceeds_witness :
  exists R,
    snd (app_exec plain (Some ",any")) = ev_ast_config_load ESPEAK_CONFIG :: R /\
    (usecache (settings_of plain) = 0 -> In ev_espeak_Initialize R).
Proof.
  apply (nonempty_argument_proceeds plain (Some ",any")). reflexivity.
Defined.

Import Cases.


Lemma interrupt_keys_witness :
  match interrupt (AST_STANDARD_APP_ARGS "hi,Any") with
  | Some keys =>
      (lowercase keys = "any" ->
       Some "0123456789#*ABCD" = Some "0123456789#*ABCD") /\
      (lowercase keys <> "any" -> Some "0123456789#*ABCD" = Some keys)
  | None => Some "0123456789#*ABCD" = None
  end.
Proof.
  apply (interrupt_keys plain "hi,Any" (Some "0123456789#*ABCD")).
  in_trace.
Defined.

Lemma cache_filled_when_missing_witness :
  "/tmp/eSpeak_1804289383" = tmp_file caching /\
  cached_path =
    (cachedir (settings_of caching) ++ "/"
     ++ ast_md5_hash (text (AST_STANDARD_APP_ARGS "hi")))%string /\
  usecache (settings_of caching) <> 0 /\
  w_fileexists caching cached_path <= 0.
Proof.
  apply (cache_filled_when_missing caching "hi").
  in_trace.
Defined.

Lemma played_file_witness :
  cached_path = tmp_file cached \/
  (cached_path =
     (cachedir (settings_of cached) ++ "/"
      ++ ast_md5_hash (text (AST_STANDARD_APP_ARGS "hi")))%string /\
   usecache (settings_of cached) <> 0 /\ 0 < w_fileexists cached cached_path).
Proof.
  apply (played_file cached "hi").
  in_trace.
Defined.

Lemma cached_file_played_witness :
  app_exec cached (Some "hi") =
    (Some (w_waitstream cached),
     prelude cached ++
     [debug_parameters (Some (text (arguments_of (Some "hi"))))
                       (interrupt (arguments_of (Some "hi")))
                       (Some (voice_in_effect cached (Some "hi")))
                       (rate_in_effect cached);
      ev_ast_debug 1 "eSpeak: Activating cache mechanism...\n" [];
      ev_ast_debug 1 "eSpeak: Cache file exists.\n" []] ++
     (if w_chan_up cached then [] else [ev_ast_answer]) ++
     [ev_ast_streamfile (cache_file cached (Some "hi"));
      ev_ast_waitstream (interrupt (arguments_of (Some "hi")));
      ev_ast_stopstream; ev_ast_config_destroy]).
Proof.
  apply (cached_file_played cached "hi").
  - reflexivity.
  - split; vm_compute; discriminate.
  - reflexivity.
  - reflexivity.
Defined.

Lemma completed_conversion_is_played_witness :
  fst (app_exec caching (Some "hi")) = Some (playback_result caching) /\
  exists pre copy answer,
    snd (app_exec caching (Some "hi"))
    = pre ++ playback caching (Some "hi") copy answer /\
    Forall unfinished pre /\
    (copy = true <->
     cache_in_use caching (Some "hi") /\
     w_fileexists caching (cache_file caching (Some "hi")) <= 0).
Proof.
  apply (completed_conversion_is_played caching (Some "hi")
           "/tmp/eSpeak_1804289383.wav16").
  in_trace.
Defined.

Lemma configuration_loaded_and_destroyed_once_witness :
  count is_config_load (snd (app_exec plain (Some "hi"))) = 1 /\
  count is_config_destroy (snd (app_exec plain (Some "hi"))) = 1.
Proof.
  apply (configuration_loaded_and_destroyed_once plain (Some "hi") 0).
  - reflexivity.
  - reflexivity.
Defined.

Lemma files_closed_and_removed_witness :
  count is_fopen (snd (app_exec (sf_open_only reading plain) (Some "hi")))
  = count is_fclose (snd (app_exec (sf_open_only reading plain) (Some "hi")))
    + count (is_error fopen_error)
        (snd (app_exec (sf_open_only reading plain) (Some "hi"))) /\
  count is_sf_open (snd (app_exec (sf_open_only reading plain) (Some "hi")))
  = count is_sf_close (snd (app_exec (sf_open_only reading plain) (Some "hi")))
    + count (is_error raw_open_error)
        (snd (app_exec (sf_open_only reading plain) (Some "hi")))
    + count (is_error wav_open_error)
        (snd (app_exec (sf_open_only reading plain) (Some "hi"))) /\
  count is_fclose (snd (app_exec (sf_open_only reading plain) (Some "hi")))
  = count is_remove (snd (app_exec (sf_open_only reading plain) (Some "hi"))).
Proof.
  apply (files_closed_and_removed (sf_open_only reading plain) (Some "hi")
           (-1)).
  reflexivity.
Defined.

Lemma engine_terminated_unless_fopen_fails_witness :
  count is_engine_start (snd (app_exec (no_fopen plain) (Some "hi")))
  = count is_engine_stop (snd (app_exec (no_fopen plain) (Some "hi")))
    + count (is_error fopen_error)
        (snd (app_exec (no_fopen plain) (Some "hi"))).
Proof.
  apply (engine_terminated_unless_fopen_fails (no_fopen plain) (Some "hi")
           (-1)).
  reflexivity.
Defined.

Lemma call_returns_without_undefined_behaviour_witness :
  exists rc, fst (app_exec (short_read 1 plain) (Some "hi")) = Some rc.
Proof.
  apply (call_returns_without_undefined_behaviour (short_read 1 plain)
           (Some "hi")).
  - reflexivity.
  - vm_compute. discriminate.
  - reflexivity.
Defined.

Lemma temporary_names_fit_witness :
  tmp_file cached = ("/tmp/eSpeak_" ++ format_li (w_random cached))%string /\
  raw_file cached = (tmp_file cached ++ ".raw")%string /\
  wav_file cached =
    String.append (tmp_file cached)
      (if rate_in_effect cached =? 16000 then ".wav16" else ".wav") /\
  raw_file cached <> wav_file cached.
Proof.
  apply (temporary_names_fit cached). vm_compute.
  split; [discriminate | reflexivity].
Defined.

Lemma callback_stores_every_chunk_witness :
  synthesis synth_callback three_chunks [7]
  = Some ([7] ++ List.concat (map samples_of three_chunks)).
Proof.
  apply (callback_stores_every_chunk three_chunks [7]).
  repeat constructor; vm_compute; discriminate.
Defined.

Lemma value_returned_witness :
  -1 = -1 \/ -1 = w_waitstream (no_engine plain) \/
  (-1 <> 0 /\ -1 = w_streamfile (no_engine plain) (tmp_file (no_engine plain))).
Proof.
  apply (value_returned (no_engine plain) (Some "hi") (-1)). reflexivity.
Defined.

Lemma voice_and_text_of_arguments_witness :
  "de" = match language (AST_STANDARD_APP_ARGS "hi,Any,de") with
         | Some (String c l) => String c l
         | _ => voice (settings_of caching)
         end /\
  "hi" = text (AST_STANDARD_APP_ARGS "hi,Any,de") /\ 2 = strlen "hi".
Proof.
  destruct (voice_and_text_of_arguments caching "hi,Any,de") as [Hv Ht].
  split; [apply Hv | apply Ht]; in_trace.
Defined.

Lemma only_temporary_files_removed_witness :
  "/tmp/eSpeak_1804289383.raw" = raw_file caching /\
  "/tmp/eSpeak_1804289383" = tmp_file caching.
Proof.
  destruct (only_temporary_files_removed caching (Some "hi")
              "/tmp/eSpeak_1804289383.raw") as [_ [Hr _]].
  destruct (only_temporary_files_removed caching (Some "hi")
              "/tmp/eSpeak_1804289383") as [_ [_ [_ Hd]]].
  split; [apply Hr | apply Hd]; in_trace.
Defined.

Lemma channel_answered_as_needed_witness :
  count is_answer (snd (app_exec plain (Some "hi"))) = 0 /\
  count is_answer (snd (app_exec cached (Some "hi"))) <= 1.
Proof.
  destruct (channel_answered_as_needed plain (Some "hi")) as [Hup _].
  destruct (channel_answered_as_needed cached (Some "hi")) as [_ Hdown].
  split; [apply Hup | apply Hdown]; reflexivity.
Defined.

Lemma calls_in_source_order_witness :
  Sorted.StronglySorted Z.le (positions (snd (app_exec caching (Some "hi")))).
Proof.
  apply (calls_in_source_order caching (Some "hi")).
Defined.
